(** * pyourls3: the YOURLS client of [pyourls3/client.py]

    A shallow embedding of the class [Yourls]: its constructor and its six
    API methods ([shorten], [update], [expand], [stats], [delete],
    [url_stats]), followed by the properties of its error classification,
    of its endpoint derivation and of its use of HTTP sessions.

    Python objects are embedded as the type [value]; a [dict] is an
    association list in insertion order, as Python keeps it.  The methods
    live in a small state-and-exception monad [M] over a [World] that counts
    the HTTP sessions opened so far and records every POST that went over
    the wire together with its reply.  The remote YOURLS installation and
    urllib3's URL parser are the two things the client does not define
    itself: they are Variables of the section [Client].  The model covers
    calls for which the transport delivers a response; connection failures
    of [requests] are outside of it. *)

From Stdlib Require Import String Ascii List ZArith Bool Lia PrimFloat.
Import ListNotations.
Open Scope string_scope.
Open Scope Z_scope.

Set Implicit Arguments.

(** ** Python values *)

(** The objects the client handles: its arguments and the decoded JSON
    documents ([None], [bool], [int], [float], [str], [list], and [dict]
    with [str] keys). *)
#[warnings="-register-all"]
Inductive value : Type :=
| VNone
| VBool (b : bool)
| VInt (n : Z)
| VFloat (x : float)
| VStr (s : string)
| VList (items : list value)
| VDict (entries : list (string * value)).

Definition dict : Type := list (string * value).

(** [bool(v)], the test behind [if not v]. *)
Definition truthy (v : value) : bool :=
  match v with
  | VNone => false
  | VBool b => b
  | VInt n => negb (n =? 0)
  | VFloat x => negb (PrimFloat.eqb x 0%float)
  | VStr s => negb (String.eqb s "")
  | VList items => match items with [] => false | _ :: _ => true end
  | VDict entries => match entries with [] => false | _ :: _ => true end
  end.

(** [v is None] *)
Definition is_none (v : value) : bool :=
  match v with VNone => true | _ => false end.

(** [type(v) is str] *)
Definition is_str (v : value) : bool :=
  match v with VStr _ => true | _ => false end.

(** [v == "literal"]: only a [str] equals a [str]. *)
Definition eq_str (v : value) (lit : string) : bool :=
  match v with VStr s => String.eqb s lit | _ => false end.

(** ** Dictionaries *)

Fixpoint dict_get (d : dict) (k : string) : option value :=
  match d with
  | [] => None
  | (k', v) :: rest => if String.eqb k' k then Some v else dict_get rest k
  end.

(** [d[k] = v]: an existing key keeps its place, a new one goes last. *)
Fixpoint dict_set (d : dict) (k : string) (v : value) : dict :=
  match d with
  | [] => [(k, v)]
  | (k', v') :: rest =>
      if String.eqb k' k then (k', v) :: rest else (k', v') :: dict_set rest k v
  end.

(** [{**a, **b}] *)
Definition dict_merge (a b : dict) : dict :=
  fold_left (fun acc kv => dict_set acc (fst kv) (snd kv)) b a.

Definition dict_has (d : dict) (k : string) : bool :=
  match dict_get d k with Some _ => true | None => false end.

(** ** Strings *)

Definition cons_head (c : ascii) (parts : list string) : list string :=
  match parts with
  | [] => [String c ""]
  | h :: t => String c h :: t
  end.

(** [s.split(sep)] for a non-empty [sep]: the text is cut at the leftmost
    occurrences of [sep], which do not overlap.  [skip] counts the
    characters of an occurrence that are still to be dropped. *)
Fixpoint split_go (sep : string) (skip : nat) (s : string) : list string :=
  match s with
  | "" => [""]
  | String c s' =>
      match skip with
      | S k => split_go sep k s'
      | O =>
          if String.prefix sep s
          then "" :: split_go sep (String.length sep - 1) s'
          else cons_head c (split_go sep 0 s')
      end
  end.

Definition py_split (sep s : string) : list string := split_go sep 0 s.

(** [sep in s] *)
Fixpoint contains (sep s : string) : bool :=
  String.prefix sep s ||
  match s with
  | "" => false
  | String _ s' => contains sep s'
  end.

(** [s[-1]] of a non-empty string. *)
Fixpoint last_char (s : string) : option ascii :=
  match s with
  | "" => None
  | String c "" => Some c
  | String _ s' => last_char s'
  end.

Definition ends_with_slash (s : string) : bool :=
  match last_char s with
  | Some c => Ascii.eqb c "/"
  | None => false
  end.

(** [sep.join(parts)] *)
Fixpoint join (sep : string) (parts : list string) : string :=
  match parts with
  | [] => ""
  | [p] => p
  | p :: rest => p ++ sep ++ join sep rest
  end.

(** ** Exceptions *)

(** Modelled from the spec: the classes of [pyourls3/exceptions.py], which
    is not among the sources.  Each of the four [Pyourls3...] constructors
    stands for the class of that name and holds the arguments that
    [client.py] passes when it raises it: ParamError the name of the
    offending argument, HTTPError the status code and the endpoint, APIError
    the message and the code, URLAlreadyExistsError the URL.  The others are
    the interpreter's and the libraries' own exceptions that the client's
    code can provoke and does not catch. *)
Inductive exn : Type :=
| Pyourls3ParamError (what : string)
| Pyourls3HTTPError (status : Z) (url : string)
| Pyourls3APIError (message code : value)
| Pyourls3URLAlreadyExistsError (url : value)
| JSONDecodeError
| KeyError (key : string)
| TypeError
| AttributeError (attr : string)
| IndexError
| LocationParseError.

(** Modelled from the spec: URLAlreadyExistsError is a specialization of
    APIError, so a handler for APIError, or an [isinstance] test against
    it, takes both constructors. *)
Definition is_api_error (e : exn) : bool :=
  match e with
  | Pyourls3APIError _ _ | Pyourls3URLAlreadyExistsError _ => true
  | _ => false
  end.

(** The errors of the library's own hierarchy. *)
Definition classified (e : exn) : bool :=
  match e with
  | Pyourls3ParamError _ | Pyourls3HTTPError _ _
  | Pyourls3APIError _ _ | Pyourls3URLAlreadyExistsError _ => true
  | _ => false
  end.

Inductive outcome (A : Type) : Type :=
| Return (a : A)
| Raise (e : exn).
Arguments Raise {A} e.

(** [j[k]] with a [str] key [k]: only a [dict] can be subscripted so. *)
Definition getitem (j : value) (k : string) : outcome value :=
  match j with
  | VDict d =>
      match dict_get d k with
      | Some v => Return v
      | None => Raise (KeyError k)
      end
  | _ => Raise TypeError
  end.

(** [v.split(sep)]: a method of [str] only. *)
Definition split (v : value) (sep : string) : outcome (list string) :=
  match v with
  | VStr s => Return (py_split sep s)
  | _ => Raise (AttributeError "split")
  end.

(** [parts[i]] *)
Definition index (parts : list string) (i : nat) : outcome value :=
  match nth_error parts i with
  | Some p => Return (VStr p)
  | None => Raise IndexError
  end.

(** ** The wire *)

Record Request : Type := mkRequest {
  via_session : nat;   (* the [requests.Session] that carries the POST *)
  req_url : string;
  req_data : dict
}.

(** What the client reads of a [requests.Response]: [status_code], and the
    document [json()] decodes, [None] when decoding raises JSONDecodeError. *)
Record Response : Type := mkResponse {
  status_code : Z;
  json_body : option value
}.

Record Exchange : Type := mkExchange {
  sent : Request;
  received : Response
}.

Record World : Type := mkWorld {
  next_session : nat;        (* sessions opened so far *)
  wire : list Exchange;      (* newest first *)
  stdout : list dict         (* objects printed, newest first *)
}.

(** The outcome of [urllib3.util.parse_url]: the scheme it found, or its
    own exception. *)
Inductive parsed : Type :=
| Parsed (scheme : option string)
| ParseFailed.

(** ** The class

    The attributes [__init__] sets; [session] is the session it opens. *)

Record Yourls : Type := mkYourls {
  is_using_signature_auth : bool;
  global_args : dict;
  api_endpoint : string;
  session : nat
}.

(** ** The monad of the methods *)

Definition M (A : Type) : Type := World -> outcome A * World.

Definition ret {A : Type} (a : A) : M A := fun w => (Return a, w).

Definition raise {A} (e : exn) : M A := fun w => (Raise e, w).

Definition bind {A B} (m : M A) (k : A -> M B) : M B :=
  fun w =>
    match m w with
    | (Return a, w') => k a w'
    | (Raise e, w') => (Raise e, w')
    end.

Definition lift {A} (o : outcome A) : M A := fun w => (o, w).

(** [try: m  except: h] *)
Definition try_except {A} (m : M A) (h : exn -> M A) : M A :=
  fun w =>
    match m w with
    | (Return a, w') => (Return a, w')
    | (Raise e, w') => h e w'
    end.

Notation "x <- m ;; k" := (bind m (fun x => k))
  (at level 61, m at next level, right associativity).
Notation "m ;;; k" := (bind m (fun _ => k))
  (at level 61, right associativity).

(** [requests.session()] *)
Definition new_session : M nat :=
  fun w => (Return (next_session w),
            mkWorld (S (next_session w)) (wire w) (stdout w)).

(** [print(d)] *)
Definition print (d : dict) : M unit :=
  fun w => (Return tt, mkWorld (next_session w) (wire w) (d :: stdout w)).

(** ** A sample environment

    A parser that agrees with urllib3 on plain absolute URLs (the scheme
    is what precedes ["://"]), and canned installations, used to run the
    client on concrete inputs. *)

Definition sample_parse_url (addr : string) : parsed :=
  match py_split "://" addr with
  | sch :: _ :: _ => Parsed (Some sch)
  | _ => Parsed None
  end.

Definition always (r : Response) : list Exchange -> Request -> Response :=
  fun _ _ => r.

Definition world0 : World := mkWorld 0 [] [].

(** A client as [__init__] leaves it after opening session 0, and the
    world after its probe. *)
Definition sample_client : Yourls :=
  mkYourls true [("signature", VStr "k"); ("format", VStr "json")]
    "http://sho.rt/yourls-api.php" 0.

Definition world1 : World :=
  mkWorld 1
    [mkExchange (mkRequest 0 "http://sho.rt/yourls-api.php"
                   [("signature", VStr "k"); ("format", VStr "json")])
       (mkResponse 200 None)]
    [].


Definition ok_without_body : Response := mkResponse 200 None.

Definition forbidden : Response := mkResponse 403 None.

Definition duplicate_reply : Response :=
  mkResponse 200
    (Some (VDict [("status", VStr "fail"); ("code", VStr "error:url");
                  ("message", VStr "https://example.com already exists")])).

Definition duplicate_without_message : Response :=
  mkResponse 200
    (Some (VDict [("status", VStr "fail"); ("code", VStr "error:url")])).

Definition failure_without_code : Response :=
  mkResponse 200 (Some (VDict [("status", VStr "fail")])).

Definition not_found_reply : Response :=
  mkResponse 404
    (Some (VDict [("message", VStr "error: not found: abc");
                  ("code", VStr "E404")])).

Definition terse_reply : Response :=
  mkResponse 404
    (Some (VDict [("message", VStr "not found"); ("code", VStr "E404")])).

Definition plain_not_found : Response :=
  mkResponse 404
    (Some (VDict [("message", VStr "error: not found");
                  ("code", VStr "E404")])).

Definition numeric_message : Response :=
  mkResponse 500 (Some (VDict [("message", VInt 500); ("code", VInt 500)])).

Definition success_without_payload : Response :=
  mkResponse 200 (Some (VDict [("message", VStr "success")])).

Definition failure_reply : Response :=
  mkResponse 200
    (Some (VDict [("status", VStr "fail"); ("code", VStr "error:keyword");
                  ("message", VStr "Short URL abc already exists")])).

Definition ok_reply : Response :=
  mkResponse 200
    (Some (VDict [("status", VStr "success"); ("message", VStr "success");
                  ("shorturl", VStr "http://sho.rt/abc");
                  ("longurl", VStr "https://example.com");
                  ("stats", VDict [("total_links", VInt 1)]);
                  ("link", VDict [("clicks", VInt 0)])])).

(** ** The client *)

Section Client.

(** [urllib3.util.parse_url] on a [str], and the remote installation: the
    reply to a request may depend on everything exchanged before. *)
Variable parse_url : string -> parsed.
Variable server : list Exchange -> Request -> Response.

(** *** Transport *)

(** [session.post(url, data=data)] on the session [sid]. *)
Definition session_post (sid : nat) (url : string) (data : dict) : M Response :=
  fun w =>
    let rq := mkRequest sid url data in
    let rs := server (wire w) rq in
    (Return rs, mkWorld (next_session w) (mkExchange rq rs :: wire w) (stdout w)).

(** [requests.post(url, data=data)]: the module-level function opens a
    session of its own for the one request. *)
Definition requests_post (url : string) (data : dict) : M Response :=
  sid <- new_session ;;
  session_post sid url data.

(** [r.json()] *)
Definition json (r : Response) : M value :=
  match json_body r with
  | Some j => ret j
  | None => raise JSONDecodeError
  end.

(** [try: j = r.json()  except json.decoder.JSONDecodeError: raise e] *)
Definition json_or_raise (r : Response) (e : exn) : M value :=
  try_except (json r)
    (fun x => match x with JSONDecodeError => raise e | _ => raise x end).

(** *** The constructor and the methods *)

(** [Yourls.__init__].  An address that is not a [str] makes urllib3's
    parser raise.  Line 54 of the source assigns to the attribute [update]
    of the session's headers and leaves the headers as they were, so it
    adds nothing to the requests.  The probe of line 56 is modelled for
    the case that the transport delivers a reply: what [requests] raises
    instead (an unsupported scheme, an unreachable host) is not part of
    the model, so nothing below says that a constructor returns because
    of what its arguments are. *)
Definition init (addr user passwd key : value) : M Yourls :=
  if negb (truthy addr) then raise (Pyourls3ParamError "API URL") else
  match addr with
  | VStr a =>
      scheme <- lift (match parse_url a with
                      | Parsed sch => Return sch
                      | ParseFailed => Raise LocationParseError
                      end) ;;
      if match scheme with Some sch => String.eqb sch "" | None => true end
      then raise (Pyourls3ParamError "addr") else
      auth <- (if is_none user || is_none passwd then
                 if is_none key then
                   raise (Pyourls3ParamError
                            "username and password or signature")
                 else if negb (is_str key)
                 then raise (Pyourls3ParamError "key")
                 else ret (true, [("signature", key)])
               else if negb (is_str user)
               then raise (Pyourls3ParamError "user")
               else if negb (is_str passwd)
               then raise (Pyourls3ParamError "passwd")
               else ret (false, [("username", user); ("password", passwd)])) ;;
      let args := dict_set (snd auth) "format" (VStr "json") in
      let a := if negb (ends_with_slash a) then a ++ "/" else a in
      let endpoint := a ++ "yourls-api.php" in
      sid <- new_session ;;
      r <- session_post sid endpoint (dict_merge [] args) ;;
      if status_code r =? 403
      then raise (Pyourls3APIError
                    (VStr "credentials are invalid or incorrect: forbidden")
                    (VInt 403))
      else ret (mkYourls (fst auth) args endpoint sid)
  | _ => raise TypeError   (* the parser takes text only *)
  end.

(** The tail shared by [shorten] and [update] (lines 89-95 and 122-128). *)
Definition check_status (j url : value) : M value :=
  st <- lift (getitem j "status") ;;
  if negb (eq_str st "success") then
    c <- lift (getitem j "code") ;;
    if eq_str c "error:url" then raise (Pyourls3URLAlreadyExistsError url)
    else
      m <- lift (getitem j "message") ;;
      c' <- lift (getitem j "code") ;;
      raise (Pyourls3APIError m c')
  else ret j.

Definition shorten (self : Yourls) (url keyword title : value) : M value :=
  if negb (truthy url) then raise (Pyourls3ParamError "url") else
  let specific_args := [("action", VStr "shorturl"); ("url", url)] in
  let specific_args :=
    if negb (is_none keyword) then dict_set specific_args "keyword" keyword
    else specific_args in
  let specific_args :=
    if negb (is_none title) then dict_set specific_args "title" title
    else specific_args in
  r <- requests_post (api_endpoint self)
         (dict_merge (global_args self) specific_args) ;;
  j <- json_or_raise r (Pyourls3HTTPError (status_code r) (api_endpoint self)) ;;
  check_status j url.

Definition update (self : Yourls) (url keyword : value) : M value :=
  if negb (truthy url) then raise (Pyourls3ParamError "url") else
  let specific_args :=
    [("action", VStr "update"); ("shorturl", url); ("url", keyword)] in
  r <- requests_post (api_endpoint self)
         (dict_merge (global_args self) specific_args) ;;
  print specific_args ;;;
  j <- json_or_raise r (Pyourls3HTTPError (status_code r) (api_endpoint self)) ;;
  check_status j url.

(** The tail shared by [expand] and [url_stats] (lines 149-152 and
    213-216); [field] is the key of the payload returned on success. *)
Definition check_message (j : value) (field : string) : M value :=
  msg <- lift (getitem j "message") ;;
  if negb (eq_str msg "success") then
    msg' <- lift (getitem j "message") ;;
    parts <- lift (split msg' ": ") ;;
    detail <- lift (index parts 1) ;;
    c <- lift (getitem j "code") ;;
    raise (Pyourls3APIError detail c)
  else lift (getitem j field).

Definition expand (self : Yourls) (url : value) : M value :=
  if negb (truthy url) then raise (Pyourls3ParamError "url") else
  let specific_args := [("action", VStr "expand"); ("shorturl", url)] in
  r <- requests_post (api_endpoint self)
         (dict_merge (global_args self) specific_args) ;;
  j <- json_or_raise r (Pyourls3HTTPError (status_code r) (api_endpoint self)) ;;
  check_message j "longurl".

Definition stats (self : Yourls) : M value :=
  let specific_args := [("action", VStr "stats")] in
  r <- requests_post (api_endpoint self)
         (dict_merge (global_args self) specific_args) ;;
  j <- json_or_raise r (Pyourls3HTTPError (status_code r) (api_endpoint self)) ;;
  lift (getitem j "stats").

Definition delete (self : Yourls) (keyword : value) : M value :=
  if negb (truthy keyword) then raise (Pyourls3ParamError "url") else
  let specific_args := [("action", VStr "delete"); ("shorturl", keyword)] in
  r <- requests_post (api_endpoint self)
         (dict_merge (global_args self) specific_args) ;;
  if status_code r =? 200 then ret (VBool true)
  else raise (Pyourls3HTTPError (status_code r) (api_endpoint self)).

Definition url_stats (self : Yourls) (url : value) : M value :=
  if negb (truthy url) then raise (Pyourls3ParamError "url") else
  let specific_args := [("action", VStr "url-stats"); ("shorturl", url)] in
  r <- requests_post (api_endpoint self)
         (dict_merge (global_args self) specific_args) ;;
  j <- json_or_raise r (Pyourls3HTTPError (status_code r) (api_endpoint self)) ;;
  check_message j "link".

(** *** Specifications *)

(** The call [m], started in [w], sent exactly the exchange [ex]. *)
Definition posted {A} (m : M A) (w : World) (ex : Exchange) : Prop :=
  wire (snd (m w)) = ex :: wire w.


(** The request of a method: a POST to the endpoint, on session [sid],
    of the global arguments merged with the method's own. *)
Definition method_request (self : Yourls) (sid : nat) (specific_args : dict)
  : Request :=
  mkRequest sid (api_endpoint self)
    (dict_merge (global_args self) specific_args).

(** [delete] looks at the status code alone. *)
Definition delete_by_status (self : Yourls) (keyword : value) : Prop :=
  forall w, exists ex,
    posted (delete self keyword) w ex /\
    sent ex = method_request self (next_session w)
                [("action", VStr "delete"); ("shorturl", keyword)] /\
    received ex = server (wire w) (sent ex) /\
    (fst (delete self keyword w) = Return (VBool true) <->
     status_code (received ex) = 200) /\
    (status_code (received ex) <> 200 ->
     fst (delete self keyword w) =
       Raise (Pyourls3HTTPError (status_code (received ex))
                (api_endpoint self))).

(** The reply is a decoded failure whose code is the duplicate-URL
    sentinel: its [status] is not ["success"], its [code] is
    ["error:url"]. *)
Definition reports_duplicate (r : Response) : bool :=
  match json_body r with
  | Some j =>
      match getitem j "status" with
      | Return st =>
          if negb (eq_str st "success") then
            match getitem j "code" with
            | Return c => eq_str c "error:url"
            | Raise _ => false
            end
          else false
      | Raise _ => false
      end
  | None => false
  end.

Definition never_url_already_exists (m : M value) : Prop :=
  forall w u, fst (m w) <> Raise (Pyourls3URLAlreadyExistsError u).

Definition url_already_exists_iff_duplicate (m : M value) (url : value)
  : Prop :=
  forall w u,
    fst (m w) = Raise (Pyourls3URLAlreadyExistsError u) <->
    (u = url /\ exists ex, posted m w ex /\ reports_duplicate (received ex) = true).

(** The error of a rejected probe (line 57). *)
Definition authentication_error : exn :=
  Pyourls3APIError (VStr "credentials are invalid or incorrect: forbidden")
    (VInt 403).

(** The address is one on which the parser itself raises. *)
Definition parser_raises (addr : value) : bool :=
  truthy addr &&
  match addr with
  | VStr a =>
      match parse_url a with ParseFailed => true | Parsed _ => false end
  | _ => true
  end.

(** Either [username] and [password], or [signature]: not both, not
    neither. *)
Definition one_auth_mode (g : dict) : bool :=
  let u := dict_has g "username" in
  let p := dict_has g "password" in
  let s := dict_has g "signature" in
  (u && p && negb s) || (negb u && negb p && s).

Definition credential_fields : list string :=
  ["username"; "password"; "signature"].

Definition credentials_are_str (g : dict) : bool :=
  forallb (fun k => match dict_get g k with
                    | Some v => is_str v
                    | None => true
                    end) credential_fields.

Definition credentials_non_empty (g : dict) : bool :=
  forallb (fun k => match dict_get g k with
                    | Some v => negb (eq_str v "")
                    | None => true
                    end) credential_fields.

(** Without a separator in the message, the failure branch of [m] ends in
    the IndexError of the subscript [[1]]. *)
Definition out_of_range_without_separator (m : M value) : Prop :=
  forall w, exists ex,
    posted m w ex /\
    forall j msg,
      json_body (received ex) = Some j ->
      getitem j "message" = Return (VStr msg) ->
      msg <> "success" ->
      contains ": " msg = false ->
      fst (m w) = Raise IndexError.

(** On a failure whose message is a [str], [m] raises the APIError of the
    second piece of the message split at [": "], and of the code. *)
Definition detail_is_second_piece (m : M value) : Prop :=
  forall w, exists ex,
    posted m w ex /\
    forall j msg detail c,
      json_body (received ex) = Some j ->
      getitem j "message" = Return (VStr msg) ->
      msg <> "success" ->
      nth_error (py_split ": " msg) 1 = Some detail ->
      getitem j "code" = Return c ->
      fst (m w) = Raise (Pyourls3APIError (VStr detail) c).

(** The keys [m] reads of a decoded reply without checking for them:
    [status]; on a failure [code]; on a failure that is not a duplicate
    [message].  A document that is no [dict] cannot be subscripted. *)
Definition unchecked_status_keys (m : M value) : Prop :=
  forall w, exists ex,
    posted m w ex /\
    (forall j, json_body (received ex) = Some j ->
       (forall d, j <> VDict d) -> fst (m w) = Raise TypeError) /\
    (forall d, json_body (received ex) = Some (VDict d) ->
       (dict_get d "status" = None -> fst (m w) = Raise (KeyError "status")) /\
       (forall st, dict_get d "status" = Some st ->
          eq_str st "success" = false ->
          (dict_get d "code" = None -> fst (m w) = Raise (KeyError "code")) /\
          (forall c, dict_get d "code" = Some c ->
             eq_str c "error:url" = false ->
             dict_get d "message" = None ->
             fst (m w) = Raise (KeyError "message")))).

(** [m] reads [stats] of whatever was decoded, with no test of success. *)
Definition unchecked_stats_key (m : M value) : Prop :=
  forall w, exists ex,
    posted m w ex /\
    (forall j, json_body (received ex) = Some j ->
       (forall d, j <> VDict d) -> fst (m w) = Raise TypeError) /\
    (forall d, json_body (received ex) = Some (VDict d) ->
       (dict_get d "stats" = None -> fst (m w) = Raise (KeyError "stats")) /\
       (forall v, dict_get d "stats" = Some v -> fst (m w) = Return v)).

(** [m] sends its request on a session of its own, not on the client's. *)
Definition bypasses_session (self : Yourls) (m : M value) : Prop :=
  forall w, (session self < next_session w)%nat ->
    exists ex,
      posted m w ex /\
      via_session (sent ex) = next_session w /\
      via_session (sent ex) <> session self.

(** A client's life: construction with a signature key, then one call of
    each method. *)
Definition every_method (addr key url keyword : value) : M Yourls :=
  self <- init addr VNone VNone key ;;
  shorten self url VNone VNone ;;;
  update self keyword url ;;;
  expand self keyword ;;;
  stats self ;;;
  delete self keyword ;;;
  url_stats self keyword ;;;
  ret self.

(** The sessions of the requests on the wire, oldest first. *)
Definition sessions_used (w : World) : list nat :=
  rev (map (fun ex => via_session (sent ex)) (wire w)).

(** The [specific_args] of each method. *)
Definition shorten_args (url keyword title : value) : dict :=
  let specific_args := [("action", VStr "shorturl"); ("url", url)] in
  let specific_args :=
    if negb (is_none keyword) then dict_set specific_args "keyword" keyword
    else specific_args in
  if negb (is_none title) then dict_set specific_args "title" title
  else specific_args.

Definition update_args (url keyword : value) : dict :=
  [("action", VStr "update"); ("shorturl", url); ("url", keyword)].

Definition expand_args (url : value) : dict :=
  [("action", VStr "expand"); ("shorturl", url)].

Definition stats_args : dict := [("action", VStr "stats")].

Definition delete_args (keyword : value) : dict :=
  [("action", VStr "delete"); ("shorturl", keyword)].

Definition url_stats_args (url : value) : dict :=
  [("action", VStr "url-stats"); ("shorturl", url)].

(** The reply to the request that a method with the arguments [specific]
    makes in [w], and the world the call leaves. *)
Definition reply (self : Yourls) (specific : dict) (w : World) : Response :=
  server (wire w) (method_request self (next_session w) specific).

Definition after_call (self : Yourls) (specific : dict) (printed : list dict)
    (w : World) : World :=
  mkWorld (S (next_session w))
    (mkExchange (method_request self (next_session w) specific)
       (reply self specific w) :: wire w)
    (printed ++ stdout w).

(** What [m] does once its argument is accepted: one request with the
    arguments [specific]; an undecodable body is the HTTPError; a decoded
    document goes to [tail]. *)
Definition calls (self : Yourls) (m : M value) (specific : dict)
    (printed : list dict) (tail : value -> M value) : Prop :=
  forall w,
    snd (m w) = after_call self specific printed w /\
    fst (m w) =
      match json_body (reply self specific w) with
      | None => Raise (Pyourls3HTTPError
                         (status_code (reply self specific w))
                         (api_endpoint self))
      | Some j => fst (tail j w)
      end.

(** The parser finds a non-empty scheme in the address. *)
Definition scheme_found (a : string) : bool :=
  match parse_url a with
  | Parsed (Some sch) => negb (String.eqb sch "")
  | _ => false
  end.

(** The credentials pass lines 31-44: a [str] key when [user] or [passwd]
    is missing, otherwise a [str] user and a [str] password. *)
Definition credentials_ok (user passwd key : value) : bool :=
  if is_none user || is_none passwd then is_str key
  else is_str user && is_str passwd.

(** The global arguments of line 38 or 44, with the format of line 46. *)
Definition auth_args (user passwd key : value) : dict :=
  if is_none user || is_none passwd
  then [("signature", key); ("format", VStr "json")]
  else [("username", user); ("password", passwd); ("format", VStr "json")].

(** Lines 48-51. *)
Definition endpoint_of (a : string) : string :=
  (if negb (ends_with_slash a) then a ++ "/" else a) ++ "yourls-api.php".

(** The client that the constructor builds in [w], its probe and the
    world after the probe. *)
Definition built (a : string) (user passwd key : value) (w : World) : Yourls :=
  mkYourls (is_none user || is_none passwd) (auth_args user passwd key)
    (endpoint_of a) (next_session w).

Definition probe (a : string) (user passwd key : value) (w : World)
  : Exchange :=
  let rq := mkRequest (next_session w) (endpoint_of a)
              (auth_args user passwd key) in
  mkExchange rq (server (wire w) rq).

Definition after_probe (a : string) (user passwd key : value) (w : World)
  : World :=
  mkWorld (S (next_session w)) (probe a user passwd key w :: wire w) (stdout w).

(** [m] raises ParamError exactly on an empty argument [arg], names it
    ["url"], and has then touched nothing. *)
Definition param_error_iff_empty (m : M value) (arg : value) : Prop :=
  forall w,
    (truthy arg = false -> m w = (Raise (Pyourls3ParamError "url"), w)) /\
    (forall what, fst (m w) = Raise (Pyourls3ParamError what) ->
                  truthy arg = false /\ what = "url").


(** [m] returns exactly the decoded document whose [status] is
    ["success"]. *)
Definition returns_document_on_success (self : Yourls) (m : M value)
    (specific : dict) : Prop :=
  forall w v,
    fst (m w) = Return v <->
    json_body (reply self specific w) = Some v /\
    exists st, getitem v "status" = Return st /\ eq_str st "success" = true.

(** [m] returns exactly the [field] of a decoded document whose
    [message] is ["success"]. *)
Definition returns_field_on_success (self : Yourls) (m : M value)
    (specific : dict) (field : string) : Prop :=
  forall w v,
    fst (m w) = Return v <->
    exists j msg,
      json_body (reply self specific w) = Some j /\
      getitem j "message" = Return msg /\ eq_str msg "success" = true /\
      getitem j field = Return v.

(** The APIError of [shorten] and [update]: the [message] and the [code]
    of a failure that is not a duplicate, as they are. *)
Definition api_error_of_status (self : Yourls) (m : M value)
    (specific : dict) : Prop :=
  forall w msg c,
    fst (m w) = Raise (Pyourls3APIError msg c) <->
    exists j st,
      json_body (reply self specific w) = Some j /\
      getitem j "status" = Return st /\ eq_str st "success" = false /\
      getitem j "code" = Return c /\ eq_str c "error:url" = false /\
      getitem j "message" = Return msg.

(** An error of the APIError family (the class or its specialization) out
    of [shorten] and [update]: a failure with a [code] that is the
    duplicate sentinel or comes with a [message]. *)
Definition api_error_family_of_status (self : Yourls) (m : M value)
    (specific : dict) : Prop :=
  forall w,
    (exists e, fst (m w) = Raise e /\ is_api_error e = true) <->
    exists j st c,
      json_body (reply self specific w) = Some j /\
      getitem j "status" = Return st /\ eq_str st "success" = false /\
      getitem j "code" = Return c /\
      (eq_str c "error:url" = true \/
       exists msg, getitem j "message" = Return msg).

(** The APIError of [expand] and [url_stats]: the second piece of a
    [str] message other than ["success"], and the [code]. *)
Definition api_error_of_message (self : Yourls) (m : M value)
    (specific : dict) : Prop :=
  forall w d c,
    fst (m w) = Raise (Pyourls3APIError d c) <->
    exists j msg detail,
      json_body (reply self specific w) = Some j /\
      getitem j "message" = Return (VStr msg) /\
      String.eqb msg "success" = false /\
      nth_error (py_split ": " msg) 1 = Some detail /\
      d = VStr detail /\
      getitem j "code" = Return c.

(** A [message] that is no [str] has no [split]. *)
Definition non_str_message_is_attribute_error (self : Yourls) (m : M value)
    (specific : dict) : Prop :=
  forall w j msg,
    json_body (reply self specific w) = Some j ->
    getitem j "message" = Return msg ->
    is_str msg = false ->
    fst (m w) = Raise (AttributeError "split").

(** The keys [m] reads of a decoded reply without checking for them:
    [message]; on success [field]; on a failure that splits, [code]. *)
Definition unchecked_message_keys (self : Yourls) (m : M value)
    (specific : dict) (field : string) : Prop :=
  forall w j,
    json_body (reply self specific w) = Some j ->
    ((forall d, j <> VDict d) -> fst (m w) = Raise TypeError) /\
    (forall d, j = VDict d ->
       (dict_get d "message" = None ->
        fst (m w) = Raise (KeyError "message")) /\
       (forall msg, dict_get d "message" = Some msg ->
          eq_str msg "success" = true ->
          dict_get d field = None ->
          fst (m w) = Raise (KeyError field)) /\
       (forall msg, dict_get d "message" = Some (VStr msg) ->
          msg <> "success" ->
          contains ": " msg = true ->
          dict_get d "code" = None ->
          fst (m w) = Raise (KeyError "code"))).

(** A failure whose message contains [": "] and that has a [code] ends in
    an APIError with that code. *)
Definition separator_gives_api_error (self : Yourls) (m : M value)
    (specific : dict) : Prop :=
  forall w j msg c,
    json_body (reply self specific w) = Some j ->
    getitem j "message" = Return (VStr msg) ->
    msg <> "success" ->
    contains ": " msg = true ->
    getitem j "code" = Return c ->
    exists detail, fst (m w) = Raise (Pyourls3APIError (VStr detail) c).

(** A message [p ++ ": " ++ d] with no other [": "] gives the detail
    [d]. *)
Definition single_separator_gives_detail (self : Yourls) (m : M value)
    (specific : dict) : Prop :=
  forall w j p d c,
    json_body (reply self specific w) = Some j ->
    getitem j "message" = Return (VStr (p ++ ": " ++ d)) ->
    contains ": " p = false ->
    contains ": " d = false ->
    getitem j "code" = Return c ->
    fst (m w) = Raise (Pyourls3APIError (VStr d) c).

(** *** Proofs *)

Ltac run_client :=
  unfold posted, shorten, update, expand, stats, delete, url_stats, init,
    check_status, check_message, json_or_raise, try_except, json,
    requests_post, session_post, new_session, print, bind, lift, raise, ret;
  simpl.

Lemma cons_neq {A} (x : A) (l : list A) : x :: l <> l.
Proof.
  intro H. apply (f_equal (@List.length A)) in H. simpl in H. lia.
Qed.

(** *** Splitting *)

Example split_error_message :
  py_split ": " "error: not found" = ["error"; "not found"].
Proof. reflexivity. Qed.

Example split_every_separator :
  py_split ": " "error: a: b" = ["error"; "a"; "b"].
Proof. reflexivity. Qed.

Example split_trailing_separator : py_split ": " "a: " = ["a"; ""].
Proof. reflexivity. Qed.

Example split_leftmost_first : py_split "aa" "aaaaa" = [""; ""; "a"].
Proof. reflexivity. Qed.

Example split_empty : py_split ": " "" = [""].
Proof. reflexivity. Qed.

Lemma prefix_spec sep : forall s,
  String.prefix sep s = true <-> exists b, s = sep ++ b.
Proof.
  induction sep as [|c sep IH]; intros s; simpl.
  - destruct s; split; intros _; eauto.
  - destruct s as [|c' s].
    + split; [discriminate | intros [b Hb]; discriminate].
    + simpl. destruct (ascii_dec c c') as [->|Hne].
      * rewrite IH. split; intros [b Hb]; exists b; [now subst | now inversion Hb].
      * split; [discriminate | intros [b Hb]; inversion Hb; congruence].
Qed.

Lemma contains_spec sep : forall s,
  contains sep s = true <-> exists a b, s = a ++ sep ++ b.
Proof.
  induction s as [|c s IH].
  - cbn [contains]. rewrite orb_false_r, prefix_spec. split.
    + intros [b Hb]. exists "", b. exact Hb.
    + intros [a [b Hb]]. destruct a; [exists b; exact Hb | discriminate].
  - cbn [contains]. rewrite orb_true_iff, IH, prefix_spec. split.
    + intros [[b Hb] | [a [b Hb]]].
      * exists "", b. exact Hb.
      * exists (String c a), b. simpl. now rewrite Hb.
    + intros [a [b Hb]]. destruct a as [|c' a].
      * left. exists b. exact Hb.
      * right. exists a, b. simpl in Hb. now inversion Hb.
Qed.

Lemma split_without_sep sep : forall s,
  contains sep s = false -> py_split sep s = [s].
Proof.
  unfold py_split. induction s as [|c s IH]; intros H.
  - reflexivity.
  - cbn [contains] in H. apply orb_false_iff in H as [Hp Hc].
    cbn [split_go]. rewrite Hp, (IH Hc). reflexivity.
Qed.

Lemma last_char_app_slash : forall a, last_char (a ++ "/") = Some "/"%char.
Proof.
  induction a as [|c a IH]; [reflexivity|].
  simpl. destruct (a ++ "/") eqn:E.
  - destruct a; discriminate.
  - exact IH.
Qed.

Lemma ends_with_slash_app a : ends_with_slash (a ++ "/") = true.
Proof. unfold ends_with_slash. now rewrite last_char_app_slash. Qed.

(** *** Undecodable bodies *)

(** Case analysis on the tests of a method, innermost first. *)
Ltac branches :=
  repeat match goal with
         | |- context [match ?x with _ => _ end] =>
             lazymatch x with
             | context [match _ with _ => _ end] => fail
             | _ => destruct x eqn:?; simpl
             end
         end.

(** A method sends one request: fix the request (it depends only on
    which optional arguments are given), name the exchange, and leave the
    property of the result. *)
Ltac one_post H :=
  intros w; run_client; try rewrite H; simpl;
  repeat match goal with
         | |- context [is_none ?k] => destruct (is_none k); simpl
         end;
  (eexists; split; [branches; reflexivity |]).






Lemma delete_spec self keyword :
  truthy keyword = true -> delete_by_status self keyword.
Proof.
  intros H w. run_client. rewrite H. simpl.
  eexists. split; [branches; reflexivity |].
  split; [reflexivity |]. split; [reflexivity |]. simpl.
  destruct (Z.eqb_spec
              (status_code
                 (server (wire w)
                    (method_request self (next_session w)
                       [("action", VStr "delete"); ("shorturl", keyword)])))
              200) as [E | E];
    unfold method_request in *; simpl in *.
  - rewrite E. simpl. split; [tauto | intros C; contradiction].
  - apply Z.eqb_neq in E. rewrite E. simpl.
    apply Z.eqb_neq in E. split; [split; [discriminate | tauto] | reflexivity].
Qed.

(** *** Where URLAlreadyExistsError comes from *)

Lemma getitem_raises j k e : getitem j k = Raise e -> classified e = false.
Proof.
  unfold getitem. destruct j; try (intros [= <-]; reflexivity).
  destruct (dict_get entries k); intros [= <-]; reflexivity.
Qed.

Lemma split_raises v sep e : split v sep = Raise e -> classified e = false.
Proof. destruct v; simpl; intros [= <-]; reflexivity. Qed.

Lemma index_raises parts i e : index parts i = Raise e -> classified e = false.
Proof.
  unfold index. destruct (nth_error parts i); intros [= <-]; reflexivity.
Qed.

(** The subscripts and the split raise nothing of the library's own. *)
Ltac unclassified H :=
  first [ apply getitem_raises in H
        | apply split_raises in H
        | apply index_raises in H ];
  simpl in H; discriminate H.

Ltac never_raised :=
  intros w u; run_client; branches; simpl; intros E;
  try discriminate E; try (injection E as ->);
  match goal with
  | H : _ = Raise (Pyourls3URLAlreadyExistsError _) |- _ => unclassified H
  end.

Lemma expand_never_url_already_exists self url :
  never_url_already_exists (expand self url).
Proof. never_raised. Qed.

Lemma url_stats_never_url_already_exists self url :
  never_url_already_exists (url_stats self url).
Proof. never_raised. Qed.

Lemma stats_never_url_already_exists self :
  never_url_already_exists (stats self).
Proof. never_raised. Qed.

Lemma delete_never_url_already_exists self keyword :
  never_url_already_exists (delete self keyword).
Proof. never_raised. Qed.

Ltac rewrite_tests_in D :=
  repeat match goal with
         | H : _ = _ |- _ =>
             tryif constr_eq H D then fail else (rewrite H in D; simpl in D)
         end.

Ltac rewrite_tests :=
  repeat match goal with
         | H : _ = _ |- _ => rewrite H; simpl
         end.

Ltac duplicate_iff :=
  intros w u; run_client; branches;
  (split;
   [ intros E;
     first
       [ discriminate E
       | injection E as E; subst;
         first
           [ match goal with
             | H : _ = Raise (Pyourls3URLAlreadyExistsError _) |- _ =>
                 unclassified H
             end
           | split; [reflexivity |]; eexists; split; [reflexivity |];
             unfold reports_duplicate; simpl; rewrite_tests; reflexivity ] ]
   | intros [-> [ex [P D]]]; simpl in P;
     first
       [ exfalso; symmetry in P; exact (cons_neq P)
       | injection P as <-; unfold reports_duplicate in D; simpl in D;
         rewrite_tests_in D; first [discriminate D | reflexivity] ] ]).

Lemma shorten_url_already_exists self url keyword title :
  url_already_exists_iff_duplicate (shorten self url keyword title) url.
Proof. duplicate_iff. Qed.

Lemma update_url_already_exists self url keyword :
  url_already_exists_iff_duplicate (update self url keyword) url.
Proof. duplicate_iff. Qed.

(** *** The constructor *)

Lemma append_assoc3 : forall a b c : string, (a ++ b) ++ c = a ++ b ++ c.
Proof.
  induction a as [|x a IH]; intros b c; simpl; [reflexivity | now rewrite IH].
Qed.

Ltac positive_tests :=
  repeat match goal with
         | H : negb _ = false |- _ => apply negb_false_iff in H
         | H : negb _ = true |- _ => apply negb_true_iff in H
         | H : _ || _ = false |- _ => apply orb_false_iff in H as [? ?]
         end.

Lemma init_returns_str addr user passwd key w self w' :
  init addr user passwd key w = (Return self, w') -> exists a, addr = VStr a.
Proof.
  run_client. destruct (negb (truthy addr)); simpl; [discriminate |].
  destruct addr; simpl; try discriminate. eauto.
Qed.

Lemma init_returns a user passwd key w self w' :
  init (VStr a) user passwd key w = (Return self, w') ->
  api_endpoint self =
    (if negb (ends_with_slash a) then a ++ "/" else a) ++ "yourls-api.php" /\
  session self = next_session w /\
  one_auth_mode (global_args self) = true /\
  credentials_are_str (global_args self) = true.
Proof.
  revert self w'. run_client.
  branches; intros self w' E; try discriminate E;
    injection E as <- <-; simpl;
    (split; [reflexivity |]); (split; [reflexivity |]); positive_tests;
    unfold one_auth_mode, credentials_are_str, dict_has; simpl;
    rewrite_tests; auto.
Qed.

Lemma init_without_credentials addr user passwd key w :
  is_none user || is_none passwd = true ->
  is_none key = true ->
  parser_raises addr = false ->
  exists what,
    init addr user passwd key w = (Raise (Pyourls3ParamError what), w).
Proof.
  unfold parser_raises. intros Hup Hk Hp. run_client.
  destruct (truthy addr); simpl in *; [| eauto].
  destruct addr; try discriminate Hp.
  destruct (parse_url s) as [[sch|]|]; try discriminate Hp; simpl.
  - destruct (String.eqb sch ""); simpl; [eauto |].
    rewrite Hup, Hk. simpl. eauto.
  - eauto.
Qed.

(** The probe: the constructor either stops before the network, with
    something else than an APIError, or sends one request on the session
    it has just opened and lets the status code decide. *)
Lemma init_probe addr user passwd key w :
  let r := init addr user passwd key w in
  (wire (snd r) = wire w /\ forall m c, fst r <> Raise (Pyourls3APIError m c)) \/
  (exists ex,
     posted (init addr user passwd key) w ex /\
     via_session (sent ex) = next_session w /\
     received ex = server (wire w) (sent ex) /\
     ((status_code (received ex) = 403 /\ fst r = Raise authentication_error) \/
      (status_code (received ex) <> 403 /\
       exists self, fst r = Return self /\ session self = next_session w))).
Proof.
  run_client.
  destruct (negb (truthy addr)); simpl; [left; split; [reflexivity | discriminate] |].
  destruct addr; simpl; try (left; split; [reflexivity | discriminate]).
  branches;
    try (left; split; [reflexivity | discriminate]);
    right; (eexists; split; [reflexivity |]); simpl;
    (split; [reflexivity |]); (split; [reflexivity |]);
    match goal with
    | H : (_ =? 403) = true |- _ =>
        apply Z.eqb_eq in H; left; split; [exact H | reflexivity]
    | H : (_ =? 403) = false |- _ =>
        apply Z.eqb_neq in H; right; split; [exact H | eauto]
    end.
Qed.

(** *** The failure branch of [expand] and [url_stats] *)

Ltac no_separator :=
  simpl; intros j msg Hj Hm Hne Hc;
  rewrite Hj; simpl; rewrite Hm; simpl;
  rewrite (proj2 (String.eqb_neq msg _) Hne); simpl;
  unfold index; rewrite (split_without_sep _ _ Hc); reflexivity.

Lemma expand_out_of_range self url :
  truthy url = true -> out_of_range_without_separator (expand self url).
Proof. intros H. one_post H. no_separator. Qed.

Lemma url_stats_out_of_range self url :
  truthy url = true -> out_of_range_without_separator (url_stats self url).
Proof. intros H. one_post H. no_separator. Qed.

Ltac second_piece :=
  intros j msg detail c Hj Hm Hne Hd Hc; simpl in Hj |- *;
  rewrite Hj; simpl; rewrite Hm; simpl;
  rewrite (proj2 (String.eqb_neq msg _) Hne); simpl;
  unfold index; simpl; rewrite Hd; simpl; rewrite Hc; reflexivity.

Lemma expand_detail self url :
  truthy url = true -> detail_is_second_piece (expand self url).
Proof. intros H. one_post H. second_piece. Qed.

Lemma url_stats_detail self url :
  truthy url = true -> detail_is_second_piece (url_stats self url).
Proof. intros H. one_post H. second_piece. Qed.

(** *** Keys read without a check *)

Lemma getitem_not_dict j k : (forall d, j <> VDict d) -> getitem j k = Raise TypeError.
Proof.
  intros H. destruct j; try reflexivity. exfalso. exact (H entries eq_refl).
Qed.

Ltac unchecked_keys :=
  simpl; split;
  [ intros j Hj Hnd; rewrite Hj; simpl;
    rewrite (getitem_not_dict _ Hnd); reflexivity
  | intros d Hj; rewrite Hj; simpl; split;
    [ intros Hs; rewrite Hs; reflexivity
    | intros st Hs Hf; rewrite Hs; simpl; rewrite Hf; simpl; split;
      [ intros Hc; rewrite Hc; reflexivity
      | intros c Hc Hd Hm; rewrite Hc; simpl; rewrite Hd; simpl;
        rewrite Hm; reflexivity ] ] ].

Lemma shorten_unchecked_keys self url keyword title :
  truthy url = true -> unchecked_status_keys (shorten self url keyword title).
Proof. intros H. one_post H; unchecked_keys. Qed.

Lemma update_unchecked_keys self url keyword :
  truthy url = true -> unchecked_status_keys (update self url keyword).
Proof. intros H. one_post H; unchecked_keys. Qed.

Lemma stats_unchecked_key self : unchecked_stats_key (stats self).
Proof.
  one_post I. simpl. split.
  - intros j Hj Hnd. rewrite Hj. simpl.
    rewrite (getitem_not_dict _ Hnd). reflexivity.
  - intros d Hj. rewrite Hj. simpl. split.
    + intros Hs. rewrite Hs. reflexivity.
    + intros v Hs. rewrite Hs. reflexivity.
Qed.

(** *** Sessions *)

Ltac own_session H :=
  intros w Hs; run_client; try rewrite H; simpl;
  repeat match goal with
         | |- context [is_none ?k] => destruct (is_none k); simpl
         end;
  (eexists; split; [branches; reflexivity |]); simpl;
  (split; [reflexivity | lia]).

Lemma shorten_bypasses_session self url keyword title :
  truthy url = true -> bypasses_session self (shorten self url keyword title).
Proof. intros H. own_session H. Qed.

Lemma update_bypasses_session self url keyword :
  truthy url = true -> bypasses_session self (update self url keyword).
Proof. intros H. own_session H. Qed.

Lemma expand_bypasses_session self url :
  truthy url = true -> bypasses_session self (expand self url).
Proof. intros H. own_session H. Qed.

Lemma stats_bypasses_session self : bypasses_session self (stats self).
Proof. own_session I. Qed.

Lemma delete_bypasses_session self keyword :
  truthy keyword = true -> bypasses_session self (delete self keyword).
Proof. intros H. own_session H. Qed.

Lemma url_stats_bypasses_session self url :
  truthy url = true -> bypasses_session self (url_stats self url).
Proof. intros H. own_session H. Qed.

Lemma init_session a user passwd key w self w' :
  init (VStr a) user passwd key w = (Return self, w') ->
  (session self < next_session w')%nat.
Proof.
  revert self w'. run_client.
  branches; intros self w' E; try discriminate E;
    injection E as <- <-; simpl; lia.
Qed.

(** *** The properties of the client *)

(** C1 (amended): URLAlreadyExistsError comes from [shorten] and from
    [update] and from no other method.  [expand], [stats], [delete] and
    [url_stats] never raise it, whatever the reply.  [shorten] and
    [update] raise it exactly when they sent their request and the reply
    decodes to a document whose [status] is not ["success"] and whose
    [code] is ["error:url"]; the error then carries the method's first
    argument [url]. *)
Theorem url_already_exists_from_shorten_and_update self url keyword title :
  url_already_exists_iff_duplicate (shorten self url keyword title) url /\
  url_already_exists_iff_duplicate (update self url keyword) url /\
  never_url_already_exists (expand self url) /\
  never_url_already_exists (stats self) /\
  never_url_already_exists (delete self url) /\
  never_url_already_exists (url_stats self url).
Proof.
  repeat apply conj.
  all: first [ apply shorten_url_already_exists
             | apply update_url_already_exists
             | apply expand_never_url_already_exists
             | apply stats_never_url_already_exists
             | apply delete_never_url_already_exists
             | apply url_stats_never_url_already_exists ].
Qed.


(** C4 (amended): the constructor accepts exactly one authentication mode
    and checks that each credential it uses is a [str]; it does not check
    that it is non-empty.  Without both [user] and [passwd] and without
    [key] it raises a ParamError before any request (on an address the URL
    parser does not itself reject), and the global arguments of every
    client it returns hold either [username] and [password] or
    [signature], never both and never neither, each of them a [str]. *)
Theorem init_validates_credentials addr user passwd key w :
  (is_none user || is_none passwd = true ->
   is_none key = true ->
   parser_raises addr = false ->
   exists what,
     init addr user passwd key w = (Raise (Pyourls3ParamError what), w)) /\
  (forall self w',
     init addr user passwd key w = (Return self, w') ->
     one_auth_mode (global_args self) = true /\
     credentials_are_str (global_args self) = true).
Proof.
  split.
  - apply init_without_credentials.
  - intros self w' E. destruct (init_returns_str _ _ _ _ _ E) as [a ->].
    apply init_returns in E. tauto.
Qed.

(** C6: [delete] with a non-empty keyword sends one request and returns
    [True] exactly when the status code of the reply is 200, whatever the
    body, which it never decodes; for every other status code it raises
    the HTTPError of that status code and of the endpoint. *)
Theorem delete_true_exactly_on_200 self keyword :
  truthy keyword = true -> delete_by_status self keyword.
Proof. apply delete_spec. Qed.

(** The constructor on arguments that pass its checks, when the probe is
    answered 403. *)
Lemma init_probe_rejected a user passwd key w :
  a <> "" ->
  scheme_found a = true ->
  credentials_ok user passwd key = true ->
  status_code (received (probe a user passwd key w)) = 403 ->
  init (VStr a) user passwd key w =
    (Raise authentication_error, after_probe a user passwd key w).
Proof.
  unfold authentication_error, after_probe, probe, auth_args, endpoint_of,
    scheme_found, credentials_ok.
  intros Ha Hs Hc Hp. run_client.
  apply String.eqb_neq in Ha. rewrite Ha. simpl.
  destruct (parse_url a) as [[sch |] |]; try discriminate Hs. simpl.
  apply negb_true_iff in Hs. rewrite Hs. simpl.
  destruct (is_none user || is_none passwd) eqn:Hn; simpl in *.
  - destruct key; try discriminate Hc; simpl.
    rewrite Hp. reflexivity.
  - apply andb_true_iff in Hc as [Hu Hpw]. rewrite Hu, Hpw. simpl.
    rewrite Hp. reflexivity.
Qed.

Lemma init_api_error_follows_403 addr user passwd key w :
  let r := init addr user passwd key w in
  (forall m c,
     fst r = Raise (Pyourls3APIError m c) ->
     Pyourls3APIError m c = authentication_error /\
     exists ex,
       posted (init addr user passwd key) w ex /\
       status_code (received ex) = 403) /\
  (forall ex,
     posted (init addr user passwd key) w ex ->
     (status_code (received ex) = 403 -> fst r = Raise authentication_error) /\
     (status_code (received ex) <> 403 -> exists self, fst r = Return self)).
Proof.
  intros r.
  destruct (init_probe addr user passwd key w)
    as [[Hw Hn] | [ex [P [_ [_ [[H403 Hr] | [Hne [self [Hr _]]]]]]]]];
    fold r in Hw, Hn || fold r in Hr; split.
  - intros m c E. exfalso. exact (Hn m c E).
  - intros ex P. unfold posted in P. fold r in P. rewrite Hw in P.
    exfalso. symmetry in P. exact (cons_neq P).
  - intros m c E. rewrite Hr in E. split.
    + congruence.
    + exists ex. split; assumption.
  - intros ex' P'. unfold posted in P, P'. rewrite P in P'.
    injection P' as <-. split; [intros _; exact Hr | intros C; contradiction].
  - intros m c E. rewrite Hr in E. discriminate E.
  - intros ex' P'. unfold posted in P, P'. rewrite P in P'.
    injection P' as <-. split; [intros C; contradiction | intros _; eauto].
Qed.

(** C7: construction fails with the authentication error, the APIError of
    code 403, exactly when the reply to its probe has status code 403.
    An APIError out of the constructor is that error and follows a probe
    answered 403; a probe answered 403 raises it, and after a probe
    answered with any other status code the constructor returns the
    client.  The probe is not optional: on a non-empty address with a
    scheme and credentials that are [str], in either authentication mode,
    the constructor sends it, over the session it has just opened and
    with the global arguments as its data, and a reply of status 403 to
    it ends the construction in the authentication error. *)
Theorem probe_403_is_authentication_error addr user passwd key w :
  let r := init addr user passwd key w in
  (forall m c,
     fst r = Raise (Pyourls3APIError m c) ->
     Pyourls3APIError m c = authentication_error /\
     exists ex,
       posted (init addr user passwd key) w ex /\
       status_code (received ex) = 403) /\
  (forall ex,
     posted (init addr user passwd key) w ex ->
     (status_code (received ex) = 403 -> fst r = Raise authentication_error) /\
     (status_code (received ex) <> 403 -> exists self, fst r = Return self)) /\
  (forall a,
     addr = VStr a ->
     a <> "" ->
     scheme_found a = true ->
     credentials_ok user passwd key = true ->
     status_code (received (probe a user passwd key w)) = 403 ->
     r = (Raise authentication_error, after_probe a user passwd key w)).
Proof.
  intros r. destruct (init_api_error_follows_403 addr user passwd key w)
    as [H1 H2].
  split; [exact H1 | split; [exact H2 |]].
  intros a -> Ha Hs Hc Hp. now apply init_probe_rejected.
Qed.

(** C8: for an address [a] that does not end in ["/"], the client built
    from [a] and the client built from [a ++ "/"] have the same endpoint,
    [a ++ "/" ++ "yourls-api.php"]. *)
Theorem trailing_slash_same_endpoint
    a user1 passwd1 key1 w1 self1 w1' user2 passwd2 key2 w2 self2 w2' :
  ends_with_slash a = false ->
  init (VStr a) user1 passwd1 key1 w1 = (Return self1, w1') ->
  init (VStr (a ++ "/")) user2 passwd2 key2 w2 = (Return self2, w2') ->
  api_endpoint self1 = api_endpoint self2 /\
  api_endpoint self1 = a ++ "/" ++ "yourls-api.php".
Proof.
  intros Hs E1 E2.
  apply init_returns in E1 as [E1 _]. apply init_returns in E2 as [E2 _].
  rewrite Hs in E1. rewrite ends_with_slash_app in E2. simpl in E1, E2.
  rewrite E1, E2, append_assoc3. split; reflexivity.
Qed.


(** C10 (amended): [shorten], [update] and [stats] subscript the decoded
    reply without checking for the keys.  In [shorten] and [update] a
    document without [status] raises KeyError; so does a failure without
    [code], and a failure whose code is not ["error:url"] without
    [message] (a failure whose code is ["error:url"] raises
    URLAlreadyExistsError and [message] is not read).  [stats] tests no
    success marker: it returns [stats] when the key is there and raises
    KeyError when it is not.  A decoded document that is no [dict] raises
    TypeError in all three.  KeyError and TypeError are none of the
    library's own errors. *)
Theorem missing_keys_raise_untyped_errors self url keyword title :
  truthy url = true ->
  unchecked_status_keys (shorten self url keyword title) /\
  unchecked_status_keys (update self url keyword) /\
  unchecked_stats_key (stats self) /\
  (forall k, classified (KeyError k) = false) /\
  classified TypeError = false.
Proof.
  intros H. repeat apply conj.
  all: first [ now apply shorten_unchecked_keys
             | now apply update_unchecked_keys
             | apply stats_unchecked_key
             | reflexivity ].
Qed.

(** *** More on splitting *)

Lemma split_go_not_nil sep : forall s k, split_go sep k s <> [].
Proof.
  induction s as [|c s IH]; intros k; cbn [split_go]; [discriminate |].
  destruct k; [| apply IH].
  destruct (String.prefix sep (String c s)); [discriminate |].
  specialize (IH 0%nat). destruct (split_go sep 0 s); [contradiction | simpl; discriminate].
Qed.

Lemma join_cons_head sep c parts :
  parts <> [] -> join sep (cons_head c parts) = String c (join sep parts).
Proof.
  destruct parts as [|p [|q rest]]; intros H; [contradiction | reflexivity | reflexivity].
Qed.

Lemma join_cons sep p parts :
  parts <> [] -> join sep (p :: parts) = p ++ sep ++ join sep parts.
Proof. destruct parts; intros H; [contradiction | reflexivity]. Qed.

Lemma split_go_skip sep : forall p rest,
  split_go sep (String.length p) (p ++ rest) = split_go sep 0 rest.
Proof. induction p as [|c p IH]; intros rest; simpl; [reflexivity | apply IH]. Qed.

Lemma length_append : forall a b : string,
  String.length (a ++ b) = (String.length a + String.length b)%nat.
Proof. induction a as [|c a IH]; intros b; simpl; [reflexivity | now rewrite IH]. Qed.

Lemma join_split_bounded sep : sep <> "" ->
  forall n s, (String.length s <= n)%nat -> join sep (py_split sep s) = s.
Proof.
  intros Hsep. unfold py_split.
  induction n as [|n IH]; intros s Hn.
  - destruct s; [reflexivity | simpl in Hn; lia].
  - destruct s as [|c s]; [reflexivity |].
    cbn [split_go]. destruct (String.prefix sep (String c s)) eqn:Hp.
    + apply prefix_spec in Hp as [rest Hrest].
      destruct sep as [|c0 sep']; [contradiction |].
      simpl in Hrest. injection Hrest as -> ->.
      cbn [String.length]. rewrite Nat.sub_1_r. cbn [Nat.pred].
      rewrite split_go_skip, join_cons by apply split_go_not_nil.
      rewrite IH; [reflexivity |].
      simpl in Hn. rewrite length_append in Hn. lia.
    + rewrite join_cons_head by apply split_go_not_nil.
      rewrite IH; [reflexivity | simpl in Hn; lia].
Qed.

Lemma split_with_sep sep : sep <> "" -> forall s,
  contains sep s = true ->
  exists a b rest, py_split sep s = a :: b :: rest.
Proof.
  intros Hsep. unfold py_split. induction s as [|c s IH]; intros H.
  - cbn [contains] in H. rewrite orb_false_r in H.
    destruct sep; [contradiction | discriminate].
  - cbn [contains] in H. cbn [split_go].
    destruct (String.prefix sep (String c s)) eqn:Hp.
    + destruct (split_go sep (String.length sep - 1) s) as [|b rest] eqn:E.
      * exfalso. exact (split_go_not_nil _ _ _ E).
      * eauto.
    + simpl in H. destruct (IH H) as (a & b & rest & E). rewrite E.
      simpl. eauto.
Qed.

(** The first [": "] of [p ++ ": " ++ d] is the one written, when [p]
    has none. *)
Lemma split_first_separator : forall p d,
  contains ": " p = false ->
  py_split ": " (p ++ ": " ++ d) = p :: py_split ": " d.
Proof.
  unfold py_split. induction p as [|c p IH]; intros d H.
  - destruct d; reflexivity.
  - cbn [contains] in H. apply orb_false_iff in H as [Hp Hc].
    change (String c p ++ ": " ++ d) with (String c (p ++ ": " ++ d)).
    cbn [split_go].
    assert (Hp' : String.prefix ": " (String c (p ++ ": " ++ d)) = false).
    { cbn [String.prefix] in Hp |- *.
      destruct (ascii_dec ":" c); [| reflexivity].
      destruct p as [|c' p]; cbn [String.prefix append] in Hp |- *.
      - destruct (ascii_dec " " ":") as [E | _]; [discriminate E | reflexivity].
      - destruct (ascii_dec " " c'); [| reflexivity].
        destruct p; discriminate Hp. }
    rewrite Hp', (IH d Hc). reflexivity.
Qed.

(** *** One call, one request *)

Ltac is_call H :=
  intros w; unfold after_call, reply, method_request, shorten_args;
  run_client; try rewrite H; simpl;
  repeat match goal with
         | |- context [is_none ?k] => destruct (is_none k); simpl
         end;
  (split; branches; reflexivity).

Lemma shorten_calls self url keyword title :
  truthy url = true ->
  calls self (shorten self url keyword title)
    (shorten_args url keyword title) [] (fun j => check_status j url).
Proof. intros H. is_call H. Qed.

Lemma update_calls self url keyword :
  truthy url = true ->
  calls self (update self url keyword) (update_args url keyword)
    [update_args url keyword] (fun j => check_status j url).
Proof. intros H. is_call H. Qed.

Lemma expand_calls self url :
  truthy url = true ->
  calls self (expand self url) (expand_args url) []
    (fun j => check_message j "longurl").
Proof. intros H. is_call H. Qed.

Lemma url_stats_calls self url :
  truthy url = true ->
  calls self (url_stats self url) (url_stats_args url) []
    (fun j => check_message j "link").
Proof. intros H. is_call H. Qed.

Lemma stats_calls self :
  calls self (stats self) stats_args [] (fun j => lift (getitem j "stats")).
Proof. is_call I. Qed.

Lemma delete_calls self keyword w :
  truthy keyword = true ->
  snd (delete self keyword w) = after_call self (delete_args keyword) [] w /\
  fst (delete self keyword w) =
    if status_code (reply self (delete_args keyword) w) =? 200
    then Return (VBool true)
    else Raise (Pyourls3HTTPError
                  (status_code (reply self (delete_args keyword) w))
                  (api_endpoint self)).
Proof. intros H. revert w. is_call H. Qed.

Lemma empty_argument_stops self url keyword title w :
  truthy url = false ->
  shorten self url keyword title w = (Raise (Pyourls3ParamError "url"), w) /\
  update self url keyword w = (Raise (Pyourls3ParamError "url"), w) /\
  expand self url w = (Raise (Pyourls3ParamError "url"), w) /\
  delete self url w = (Raise (Pyourls3ParamError "url"), w) /\
  url_stats self url w = (Raise (Pyourls3ParamError "url"), w).
Proof. intros H. run_client. rewrite H. repeat split. Qed.

(** *** The two tails *)

Ltac witnessed :=
  repeat first [reflexivity | eassumption | split | eexists].

(** Both directions of a characterisation of a tail, test by test. *)
Ltac tail_iff :=
  intros; run_client; branches;
  (split;
   [ intros E; try discriminate E; inversion E; subst; positive_tests;
     first [ exfalso; congruence
           | match goal with H : _ = Raise _ |- _ => unclassified H end
           | solve [witnessed] ]
   | intros D; decompose [and ex] D; clear D; subst; positive_tests;
     first [reflexivity | congruence] ]).

Lemma check_status_returns j url w v :
  fst (check_status j url w) = Return v <->
  v = j /\
  exists st, getitem j "status" = Return st /\ eq_str st "success" = true.
Proof. tail_iff. Qed.

Lemma check_status_api_error j url w m c :
  fst (check_status j url w) = Raise (Pyourls3APIError m c) <->
  exists st,
    getitem j "status" = Return st /\ eq_str st "success" = false /\
    getitem j "code" = Return c /\ eq_str c "error:url" = false /\
    getitem j "message" = Return m.
Proof. tail_iff. Qed.

Lemma check_message_returns j field w v :
  fst (check_message j field w) = Return v <->
  exists msg,
    getitem j "message" = Return msg /\ eq_str msg "success" = true /\
    getitem j field = Return v.
Proof. tail_iff. Qed.

Lemma check_message_api_error j field w d c :
  fst (check_message j field w) = Raise (Pyourls3APIError d c) <->
  exists msg detail,
    getitem j "message" = Return (VStr msg) /\
    String.eqb msg "success" = false /\
    nth_error (py_split ": " msg) 1 = Some detail /\
    d = VStr detail /\
    getitem j "code" = Return c.
Proof.
  run_client. destruct (getitem j "message") as [msg | e] eqn:Hm; simpl.
  2: { split; [ intros E; inversion E; subst; unclassified Hm
              | intros (? & ? & H & _); discriminate H ]. }
  destruct msg as [| | | | s | |]; simpl;
    try (split; [ intros E; discriminate E
                | intros (? & ? & H & _); discriminate H ]).
  destruct (String.eqb s "success") eqn:Hs; simpl.
  - split.
    + intros E. unclassified E.
    + intros (msg & detail & H & Hf & _). injection H as <-. congruence.
  - unfold index. destruct (nth_error (py_split ": " s) 1) as [p |] eqn:Hn.
    + simpl. destruct (getitem j "code") as [c' | e] eqn:Hc; simpl.
      * split.
        -- intros E. injection E as <- <-. exists s, p. auto.
        -- intros (msg & detail & H & _ & Hd & -> & Hc').
           injection H as <-. simpl in Hn, Hd. congruence.
      * split.
        -- intros E. inversion E; subst. unclassified Hc.
        -- intros (msg & detail & _ & _ & _ & _ & Hc'). discriminate Hc'.
    + simpl. split.
      * intros E. discriminate E.
      * intros (msg & detail & H & _ & Hd & _). injection H as <-.
        simpl in Hn, Hd. congruence.
Qed.

Ltac tail_raises :=
  run_client; branches; intros E C; inversion E; subst;
  first [ discriminate C
        | solve [eauto]
        | match goal with
          | H : _ = Raise _ |- _ =>
              first [ apply getitem_raises in H
                    | apply split_raises in H
                    | apply index_raises in H ]; congruence
          end ].

Lemma check_status_raises j url w e :
  fst (check_status j url w) = Raise e ->
  classified e = true ->
  e = Pyourls3URLAlreadyExistsError url \/ exists m c, e = Pyourls3APIError m c.
Proof. tail_raises. Qed.

Lemma check_message_raises j field w e :
  fst (check_message j field w) = Raise e ->
  classified e = true ->
  exists d c, e = Pyourls3APIError d c.
Proof. tail_raises. Qed.

Lemma check_message_not_str j field w m :
  getitem j "message" = Return m ->
  is_str m = false ->
  fst (check_message j field w) = Raise (AttributeError "split").
Proof.
  intros Hm Hs. run_client. rewrite Hm. simpl.
  destruct m; try discriminate Hs; reflexivity.
Qed.

Lemma check_message_missing_keys j field w :
  (forall e, getitem j "message" = Raise e ->
     fst (check_message j field w) = Raise e) /\
  (forall msg e, getitem j "message" = Return msg ->
     eq_str msg "success" = true -> getitem j field = Raise e ->
     fst (check_message j field w) = Raise e) /\
  (forall msg detail e, getitem j "message" = Return (VStr msg) ->
     String.eqb msg "success" = false ->
     nth_error (py_split ": " msg) 1 = Some detail ->
     getitem j "code" = Raise e ->
     fst (check_message j field w) = Raise e).
Proof.
  run_client. repeat apply conj.
  - intros e H. rewrite H. reflexivity.
  - intros msg e H S F. rewrite H. simpl. rewrite S. simpl. exact F.
  - intros msg detail e H S N C. rewrite H. simpl. rewrite S. simpl.
    unfold index. simpl in N |- *. rewrite N. simpl. rewrite C. reflexivity.
Qed.

(** *** From the tails to the methods *)

Lemma calls_returns self m specific printed tail :
  calls self m specific printed tail ->
  forall w v,
    fst (m w) = Return v <->
    exists j, json_body (reply self specific w) = Some j /\
              fst (tail j w) = Return v.
Proof.
  intros C w v. destruct (C w) as [_ ->].
  destruct (json_body (reply self specific w)) as [j |].
  - split; [eauto | intros (j' & [= <-] & H); exact H].
  - split; [discriminate | intros (j' & H & _); discriminate H].
Qed.

Lemma calls_raises self m specific printed tail :
  calls self m specific printed tail ->
  forall w e,
    fst (m w) = Raise e <->
    (json_body (reply self specific w) = None /\
     e = Pyourls3HTTPError (status_code (reply self specific w))
           (api_endpoint self)) \/
    (exists j, json_body (reply self specific w) = Some j /\
               fst (tail j w) = Raise e).
Proof.
  intros C w e. destruct (C w) as [_ ->].
  destruct (json_body (reply self specific w)) as [j |].
  - split.
    + eauto.
    + intros [[H _] | (j' & [= <-] & H)]; [discriminate H | exact H].
  - split.
    + intros [= <-]. auto.
    + intros [[_ ->] | (j' & H & _)]; [reflexivity | discriminate H].
Qed.

(** *** Dictionaries *)

Lemma dict_get_set d k v k' :
  dict_get (dict_set d k v) k' =
  if String.eqb k k' then Some v else dict_get d k'.
Proof.
  induction d as [| [k0 v0] d IH]; simpl; [reflexivity |].
  destruct (String.eqb_spec k0 k) as [-> | Hne]; simpl.
  - destruct (String.eqb k k'); reflexivity.
  - rewrite IH. destruct (String.eqb_spec k0 k') as [-> | Hne']; [| reflexivity].
    destruct (String.eqb_spec k k') as [-> | _]; [contradiction | reflexivity].
Qed.

Lemma dict_get_app (d : dict) k v k' :
  dict_get (d ++ [(k, v)])%list k' =
  match dict_get d k' with
  | Some x => Some x
  | None => if String.eqb k k' then Some v else None
  end.
Proof.
  induction d as [| [k0 v0] d IH]; simpl; [reflexivity |].
  destruct (String.eqb k0 k'); [reflexivity | exact IH].
Qed.

Lemma dict_get_merge : forall b a k,
  dict_get (dict_merge a b) k =
  match dict_get (rev b) k with
  | Some v => Some v
  | None => dict_get a k
  end.
Proof.
  unfold dict_merge. induction b as [| [k0 v0] b IH]; intros a k; simpl.
  - reflexivity.
  - rewrite IH, dict_get_app, dict_get_set.
    destruct (dict_get (rev b) k); [reflexivity |].
    destruct (String.eqb k0 k); reflexivity.
Qed.

(** *** The constructor, step by step *)

Lemma init_success a user passwd key w self w' :
  init (VStr a) user passwd key w = (Return self, w') ->
  self = built a user passwd key w /\
  w' = after_probe a user passwd key w /\
  status_code (received (probe a user passwd key w)) <> 403 /\
  a <> "" /\
  scheme_found a = true /\
  credentials_ok user passwd key = true.
Proof.
  unfold built, after_probe, probe, auth_args, endpoint_of, scheme_found,
    credentials_ok.
  revert self w'. run_client.
  branches; intros self w' E; try discriminate E;
    injection E as <- <-; positive_tests; simpl;
    repeat match goal with
           | H : (_ =? 403) = false |- _ => apply Z.eqb_neq in H
           | H : String.eqb _ "" = false |- _ => apply String.eqb_neq in H
           end;
    rewrite_tests; repeat split; auto.
Qed.

(** *** Further properties of the methods *)

Lemma calls_param_error self m specific printed tail arg :
  (truthy arg = false -> forall w, m w = (Raise (Pyourls3ParamError "url"), w)) ->
  (truthy arg = true -> calls self m specific printed tail) ->
  (forall j w e, fst (tail j w) = Raise e -> classified e = true ->
                 forall what, e <> Pyourls3ParamError what) ->
  param_error_iff_empty m arg.
Proof.
  intros Hstop Hcall Htail w. split; [intros H; now apply Hstop |].
  intros what E. destruct (truthy arg) eqn:T.
  - exfalso. apply (calls_raises (Hcall eq_refl)) in E
      as [[_ E] | (j & _ & E)]; [discriminate E |].
    exact (Htail _ _ _ E eq_refl what eq_refl).
  - rewrite (Hstop eq_refl w) in E. injection E as <-. auto.
Qed.

Lemma check_status_no_param_error j url w e :
  fst (check_status j url w) = Raise e -> classified e = true ->
  forall what, e <> Pyourls3ParamError what.
Proof.
  intros E C what ->.
  destruct (check_status_raises _ _ _ E C) as [H | (m & c & H)]; discriminate H.
Qed.

Lemma check_message_no_param_error field j w e :
  fst (check_message j field w) = Raise e -> classified e = true ->
  forall what, e <> Pyourls3ParamError what.
Proof.
  intros E C what ->.
  destruct (check_message_raises _ _ _ E C) as (m & c & H); discriminate H.
Qed.

(** X1: [shorten], [update], [expand], [delete] and [url_stats] raise
    ParamError exactly when their first argument is empty; the error names
    ["url"] (also in [delete], whose argument is the keyword), and the call
    has then opened no session, sent nothing and printed nothing.  [stats]
    never raises ParamError. *)
Theorem param_error_iff_empty_argument self url keyword title :
  param_error_iff_empty (shorten self url keyword title) url /\
  param_error_iff_empty (update self url keyword) url /\
  param_error_iff_empty (expand self url) url /\
  param_error_iff_empty (delete self url) url /\
  param_error_iff_empty (url_stats self url) url /\
  (forall w what, fst (stats self w) <> Raise (Pyourls3ParamError what)).
Proof.
  repeat apply conj.
  - eapply calls_param_error;
      [ intros H w; apply empty_argument_stops; exact H
      | apply shorten_calls
      | intros j; apply check_status_no_param_error ].
  - eapply calls_param_error;
      [ intros H w; now apply (empty_argument_stops self url keyword title)
      | apply update_calls
      | intros j; apply check_status_no_param_error ].
  - eapply calls_param_error;
      [ intros H w; now apply (empty_argument_stops self url keyword title)
      | apply expand_calls
      | intros j; apply check_message_no_param_error ].
  - intros w. split.
    + intros H. now apply (empty_argument_stops self url keyword title).
    + intros what E. destruct (truthy url) eqn:T.
      * exfalso. destruct (@delete_calls self url w T) as [_ Hf].
        rewrite Hf in E. destruct (_ =? 200); discriminate E.
      * destruct (empty_argument_stops self url keyword title w T)
          as (_ & _ & _ & Hd & _).
        rewrite Hd in E. injection E as <-. auto.
  - eapply calls_param_error;
      [ intros H w; now apply (empty_argument_stops self url keyword title)
      | apply url_stats_calls
      | intros j; apply check_message_no_param_error ].
  - intros w what E.
    apply (calls_raises (stats_calls self)) in E as [[_ E] | (j & _ & E)];
      [discriminate E |].
    apply getitem_raises in E. discriminate E.
Qed.

(** X2: a call with a non-empty argument opens exactly one session and
    sends exactly one POST, over that session, to the client's endpoint;
    its form data are the global arguments merged with the method's own.
    [update] prints its own arguments, no other method prints. *)
Theorem each_call_posts_once self url keyword title w :
  truthy url = true ->
  snd (shorten self url keyword title w) =
    after_call self (shorten_args url keyword title) [] w /\
  snd (update self url keyword w) =
    after_call self (update_args url keyword) [update_args url keyword] w /\
  snd (expand self url w) = after_call self (expand_args url) [] w /\
  snd (stats self w) = after_call self stats_args [] w /\
  snd (delete self url w) = after_call self (delete_args url) [] w /\
  snd (url_stats self url w) = after_call self (url_stats_args url) [] w.
Proof.
  intros H. repeat apply conj.
  - apply (@shorten_calls self url keyword title H).
  - apply (@update_calls self url keyword H).
  - apply (@expand_calls self url H).
  - apply (stats_calls self).
  - apply (@delete_calls self url w H).
  - apply (@url_stats_calls self url H).
Qed.

(** X3: in the form data of a request the method's own arguments win over
    the global ones, the later of two equal keys over the earlier, and
    every other global argument is passed on as it is. *)
Theorem request_data_lookup self sid specific k :
  dict_get (req_data (method_request self sid specific)) k =
  match dict_get (rev specific) k with
  | Some v => Some v
  | None => dict_get (global_args self) k
  end.
Proof. unfold method_request. simpl. apply dict_get_merge. Qed.





Lemma calls_document self m specific printed url :
  calls self m specific printed (fun j => check_status j url) ->
  returns_document_on_success self m specific /\
  api_error_of_status self m specific.
Proof.
  intros C. split.
  - intros w v. rewrite (calls_returns C). split.
    + intros (j & Hj & E). apply check_status_returns in E as [-> E]. auto.
    + intros (Hj & E). exists v. split; [exact Hj |].
      apply check_status_returns. auto.
  - intros w msg c. rewrite (calls_raises C). split.
    + intros [[_ E] | (j & Hj & E)]; [discriminate E |].
      apply check_status_api_error in E as (st & E). exists j, st.
      split; [exact Hj | exact E].
    + intros (j & st & Hj & E). right. exists j. split; [exact Hj |].
      apply check_status_api_error. exists st. exact E.
Qed.

(** X5: [shorten] and [update], with a non-empty argument, return exactly
    when the reply decodes to a document whose [status] is ["success"],
    and what they return is that whole document, unchanged. *)
Theorem document_returned_on_status_success self url keyword title :
  truthy url = true ->
  returns_document_on_success self (shorten self url keyword title)
    (shorten_args url keyword title) /\
  returns_document_on_success self (update self url keyword)
    (update_args url keyword).
Proof.
  intros H. split.
  - exact (proj1 (calls_document (@shorten_calls self url keyword title H))).
  - exact (proj1 (calls_document (@update_calls self url keyword H))).
Qed.

Lemma getitem_raises_no_api_error j k e :
  getitem j k = Raise e -> is_api_error e = false.
Proof.
  intros H. apply getitem_raises in H. destruct e; try reflexivity;
    discriminate H.
Qed.

Lemma check_status_family j url w :
  (exists e, fst (check_status j url w) = Raise e /\ is_api_error e = true) <->
  exists st c,
    getitem j "status" = Return st /\ eq_str st "success" = false /\
    getitem j "code" = Return c /\
    (eq_str c "error:url" = true \/
     exists msg, getitem j "message" = Return msg).
Proof.
  run_client.
  destruct (getitem j "status") as [st | e0] eqn:Hs; simpl.
  2: { split.
       - intros (e & [= <-] & A).
         apply getitem_raises_no_api_error in Hs. congruence.
       - intros (st & c & H & _). discriminate H. }
  destruct (negb (eq_str st "success")) eqn:Hn; simpl.
  2: { apply negb_false_iff in Hn. split.
       - intros (e & E & _). discriminate E.
       - intros (st' & c & [= <-] & F & _). congruence. }
  apply negb_true_iff in Hn.
  destruct (getitem j "code") as [c | e0] eqn:Hc; simpl.
  2: { split.
       - intros (e & [= <-] & A).
         apply getitem_raises_no_api_error in Hc. congruence.
       - intros (st' & c & _ & _ & H & _). discriminate H. }
  destruct (eq_str c "error:url") eqn:Hd; simpl.
  - split.
    + intros _. exists st, c. auto.
    + intros _. eexists. split; reflexivity.
  - destruct (getitem j "message") as [msg | e0] eqn:Hm; simpl.
    + split.
      * intros _. exists st, c. repeat split; eauto.
      * intros _. eexists. split; reflexivity.
    + split.
      * intros (e & [= <-] & A).
        apply getitem_raises_no_api_error in Hm. congruence.
      * intros (st' & c' & _ & _ & [= <-] & [D | (msg & M)]);
          [congruence | discriminate M].
Qed.

Lemma calls_family self m specific printed url :
  calls self m specific printed (fun j => check_status j url) ->
  api_error_family_of_status self m specific.
Proof.
  intros C w. split.
  - intros (e & E & A). apply (calls_raises C) in E as [[_ ->] | (j & Hj & E)];
      [discriminate A |].
    destruct (proj1 (check_status_family j url w)) as (st & c & H);
      [eauto |].
    exists j, st, c. split; [exact Hj | exact H].
  - intros (j & st & c & Hj & H).
    destruct (proj2 (check_status_family j url w)) as (e & E & A);
      [eauto |].
    exists e. split; [| exact A].
    apply (calls_raises C). right. eauto.
Qed.

(** X6: [shorten] and [update], with a non-empty argument, raise an error
    of the class APIError itself (not its specialization
    URLAlreadyExistsError) exactly when the reply decodes to a document
    whose [status] is not ["success"], whose [code] is not ["error:url"]
    and that has a [message]; the error carries that message and that
    code as they are.  They raise an error of the APIError family, the
    class or the specialization, exactly when the reply decodes to a
    document whose [status] is not ["success"] and whose [code] is either
    ["error:url"] or comes with a [message]. *)
Theorem api_error_carries_message_and_code self url keyword title :
  truthy url = true ->
  api_error_of_status self (shorten self url keyword title)
    (shorten_args url keyword title) /\
  api_error_of_status self (update self url keyword)
    (update_args url keyword) /\
  api_error_family_of_status self (shorten self url keyword title)
    (shorten_args url keyword title) /\
  api_error_family_of_status self (update self url keyword)
    (update_args url keyword).
Proof.
  intros H. repeat apply conj.
  - exact (proj2 (calls_document (@shorten_calls self url keyword title H))).
  - exact (proj2 (calls_document (@update_calls self url keyword H))).
  - exact (calls_family (@shorten_calls self url keyword title H)).
  - exact (calls_family (@update_calls self url keyword H)).
Qed.

Lemma calls_field self m specific printed field :
  calls self m specific printed (fun j => check_message j field) ->
  returns_field_on_success self m specific field /\
  api_error_of_message self m specific.
Proof using server.
  intros C. split.
  - intros w v. rewrite (calls_returns C). split.
    + intros (j & Hj & E). apply check_message_returns in E as (msg & E).
      exists j, msg. split; [exact Hj | exact E].
    + intros (j & msg & Hj & E). exists j. split; [exact Hj |].
      apply check_message_returns. exists msg. exact E.
  - intros w d c. rewrite (calls_raises C). split.
    + intros [[_ E] | (j & Hj & E)]; [discriminate E |].
      apply check_message_api_error in E as (msg & detail & E).
      exists j, msg, detail. split; [exact Hj | exact E].
    + intros (j & msg & detail & Hj & E). right. exists j.
      split; [exact Hj |]. apply check_message_api_error.
      exists msg, detail. exact E.
Qed.

(** X7: [expand] and [url_stats], with a non-empty argument, return
    exactly when the reply decodes to a document whose [message] is
    ["success"] and that has the key [longurl], respectively [link]; they
    return the value under that key and look neither at [status] nor at
    the HTTP status code. *)
Theorem field_returned_on_message_success self url :
  truthy url = true ->
  returns_field_on_success self (expand self url) (expand_args url)
    "longurl" /\
  returns_field_on_success self (url_stats self url) (url_stats_args url)
    "link".
Proof.
  intros H. split.
  - exact (proj1 (calls_field (@expand_calls self url H))).
  - exact (proj1 (calls_field (@url_stats_calls self url H))).
Qed.

(** X8: [expand] and [url_stats], with a non-empty argument, raise an
    APIError exactly when the reply decodes to a document whose [message]
    is a text other than ["success"] that splits at [": "] into at least
    two pieces and that has a [code]; the error carries the second piece
    and the code. *)
Theorem api_error_carries_second_piece self url :
  truthy url = true ->
  api_error_of_message self (expand self url) (expand_args url) /\
  api_error_of_message self (url_stats self url) (url_stats_args url).
Proof.
  intros H. split.
  - exact (proj2 (calls_field (@expand_calls self url H))).
  - exact (proj2 (calls_field (@url_stats_calls self url H))).
Qed.

Lemma calls_decoded self m specific printed tail w j :
  calls self m specific printed tail ->
  json_body (reply self specific w) = Some j ->
  fst (m w) = fst (tail j w).
Proof. intros C Hj. destruct (C w) as [_ ->]. now rewrite Hj. Qed.

Lemma calls_non_str_message self m specific printed field :
  calls self m specific printed (fun j => check_message j field) ->
  non_str_message_is_attribute_error self m specific.
Proof.
  intros C w j msg Hj Hm Hs. rewrite (calls_decoded _ C Hj).
  now apply check_message_not_str with (m := msg).
Qed.

(** C9 (amended): in [expand] and [url_stats] the failure branch ends in
    an untyped error, none of the library's own, on every decoded reply
    whose [message] has no [": "] to split at.  When the [message] is a
    text other than ["success"] that does not contain [": "], the
    subscript [[1]] of the split raises IndexError; when it is not a text
    at all (a number, [null], a list), it is not ["success"] either and
    [split] itself raises AttributeError. *)
Theorem message_without_separator_raises_index_error self url :
  truthy url = true ->
  out_of_range_without_separator (expand self url) /\
  out_of_range_without_separator (url_stats self url) /\
  classified IndexError = false /\
  non_str_message_is_attribute_error self (expand self url) (expand_args url) /\
  non_str_message_is_attribute_error self (url_stats self url)
    (url_stats_args url) /\
  classified (AttributeError "split") = false.
Proof.
  intros H. repeat apply conj.
  - now apply expand_out_of_range.
  - now apply url_stats_out_of_range.
  - reflexivity.
  - exact (calls_non_str_message (@expand_calls self url H)).
  - exact (calls_non_str_message (@url_stats_calls self url H)).
  - reflexivity.
Qed.

(** X9: in [expand] and [url_stats], a decoded reply whose [message] is
    not a text (a number, [null], a list, ...) raises AttributeError, none
    of the library's own errors: such a message is not ["success"] and has
    no [split]. *)
Theorem non_str_message_raises_attribute_error self url :
  truthy url = true ->
  non_str_message_is_attribute_error self (expand self url) (expand_args url) /\
  non_str_message_is_attribute_error self (url_stats self url)
    (url_stats_args url) /\
  classified (AttributeError "split") = false.
Proof.
  intros H. repeat apply conj.
  - exact (calls_non_str_message (@expand_calls self url H)).
  - exact (calls_non_str_message (@url_stats_calls self url H)).
  - reflexivity.
Qed.

Lemma second_piece_exists msg :
  contains ": " msg = true ->
  exists detail, nth_error (py_split ": " msg) 1 = Some detail.
Proof.
  intros H. destruct (@split_with_sep ": " ltac:(discriminate) msg H)
    as (a & b & rest & ->). exists b. reflexivity.
Qed.

Lemma calls_message_keys self m specific printed field :
  calls self m specific printed (fun j => check_message j field) ->
  unchecked_message_keys self m specific field.
Proof.
  intros C w j Hj. rewrite (calls_decoded _ C Hj).
  destruct (check_message_missing_keys j field w) as (K1 & K2 & K3).
  split; [| intros d ->; repeat apply conj].
  - intros Hnd. apply K1. now apply getitem_not_dict.
  - intros Hm. apply K1. simpl. now rewrite Hm.
  - intros msg Hm Hs Hf. apply K2 with (msg := msg); simpl;
      [now rewrite Hm | exact Hs | now rewrite Hf].
  - intros msg Hm Hne Hc Hcode.
    destruct (second_piece_exists _ Hc) as [detail Hd].
    apply K3 with (msg := msg) (detail := detail); simpl;
      [ now rewrite Hm | now apply String.eqb_neq | exact Hd
      | now rewrite Hcode ].
Qed.

(** X10: [expand] and [url_stats] subscript the decoded reply without
    checking for the keys: a document without [message] raises KeyError,
    so does a success without [longurl] (respectively [link]) and a failure
    whose message contains [": "] without [code]; a decoded document that
    is no [dict] raises TypeError. *)
Theorem message_keys_read_without_check self url :
  truthy url = true ->
  unchecked_message_keys self (expand self url) (expand_args url) "longurl" /\
  unchecked_message_keys self (url_stats self url) (url_stats_args url) "link".
Proof.
  intros H. split.
  - exact (calls_message_keys (@expand_calls self url H)).
  - exact (calls_message_keys (@url_stats_calls self url H)).
Qed.

Lemma calls_separator self m specific printed field :
  calls self m specific printed (fun j => check_message j field) ->
  separator_gives_api_error self m specific.
Proof.
  intros C w j msg c Hj Hm Hne Hc Hcode.
  destruct (second_piece_exists _ Hc) as [detail Hd]. exists detail.
  apply (proj2 (calls_field C)). exists j, msg, detail.
  repeat split; auto. now apply String.eqb_neq.
Qed.

(** X11: in [expand] and [url_stats], a decoded failure whose [message]
    is a text that contains [": "] and that has a [code] always ends in an
    APIError carrying that code, never in IndexError. *)
Theorem message_with_separator_raises_api_error self url :
  truthy url = true ->
  separator_gives_api_error self (expand self url) (expand_args url) /\
  separator_gives_api_error self (url_stats self url) (url_stats_args url).
Proof.
  intros H. split.
  - exact (calls_separator (@expand_calls self url H)).
  - exact (calls_separator (@url_stats_calls self url H)).
Qed.

Lemma separated_is_not_success p d : p ++ ": " ++ d <> "success".
Proof.
  intros E.
  assert (H : contains ": " (p ++ ": " ++ d) = true)
    by (apply contains_spec; eauto).
  rewrite E in H. discriminate H.
Qed.

Lemma calls_single_separator self m specific printed field :
  calls self m specific printed (fun j => check_message j field) ->
  single_separator_gives_detail self m specific.
Proof.
  intros C w j p d c Hj Hm Hp Hd Hcode.
  apply (proj2 (calls_field C)). exists j, (p ++ ": " ++ d), d.
  repeat split; auto.
  - apply String.eqb_neq, separated_is_not_success.
  - rewrite (@split_first_separator p d Hp), (@split_without_sep ": " d Hd).
    reflexivity.
Qed.

(** X12: in [expand] and [url_stats], a decoded failure whose [message]
    is [p ++ ": " ++ d] with no [": "] in [p] and none in [d] (as in
    ["error: not found"]) raises the APIError of the detail [d], whole,
    and of the code. *)
Theorem single_separator_keeps_whole_detail self url :
  truthy url = true ->
  single_separator_gives_detail self (expand self url) (expand_args url) /\
  single_separator_gives_detail self (url_stats self url)
    (url_stats_args url).
Proof.
  intros H. split.
  - exact (calls_single_separator (@expand_calls self url H)).
  - exact (calls_single_separator (@url_stats_calls self url H)).
Qed.

(** *** Further properties of the constructor *)

(** X13: the constructor checks the address first, whatever the
    credentials: an empty address raises ParamError ["API URL"], a text in
    which the parser finds no scheme, or an empty one, raises ParamError
    ["addr"]; in both cases no session is opened and nothing is sent. *)
Theorem init_rejects_address addr user passwd key w :
  (truthy addr = false ->
   init addr user passwd key w = (Raise (Pyourls3ParamError "API URL"), w)) /\
  (forall a,
     addr = VStr a -> a <> "" ->
     parse_url a = Parsed None \/ parse_url a = Parsed (Some "") ->
     init addr user passwd key w = (Raise (Pyourls3ParamError "addr"), w)).
Proof.
  split.
  - intros H. run_client. rewrite H. reflexivity.
  - intros a -> Ha Hp. run_client.
    apply String.eqb_neq in Ha. rewrite Ha. simpl.
    destruct Hp as [-> | ->]; reflexivity.
Qed.

(** X14: on an address that passes, the constructor checks the types of
    the credentials it is going to use, before any request: a key that is
    no [str] raises ParamError ["key"]; with [user] and [passwd] both
    given, a [user] that is no [str] raises ParamError ["user"], and a
    [passwd] that is no [str], after a [str] user, ParamError
    ["passwd"]. *)
Theorem init_rejects_credentials a user passwd key w :
  a <> "" ->
  scheme_found a = true ->
  (is_none user || is_none passwd = true ->
   is_none key = false -> is_str key = false ->
   init (VStr a) user passwd key w = (Raise (Pyourls3ParamError "key"), w)) /\
  (is_none user || is_none passwd = false ->
   is_str user = false ->
   init (VStr a) user passwd key w = (Raise (Pyourls3ParamError "user"), w)) /\
  (is_none user || is_none passwd = false ->
   is_str user = true -> is_str passwd = false ->
   init (VStr a) user passwd key w = (Raise (Pyourls3ParamError "passwd"), w)).
Proof.
  unfold scheme_found. intros Ha Hs. run_client.
  apply String.eqb_neq in Ha. rewrite Ha. simpl.
  destruct (parse_url a) as [[sch |] |]; try discriminate Hs. simpl.
  apply negb_true_iff in Hs. rewrite Hs. simpl.
  repeat apply conj.
  - intros -> -> ->. reflexivity.
  - intros -> ->. reflexivity.
  - intros -> -> ->. reflexivity.
Qed.

(** X15: the credentials the constructor does not use do not matter.
    With [user] and [passwd] both given, the key is ignored, whatever it
    is; with one of them missing, the other is ignored and the key alone
    decides. *)
Theorem unused_credentials_are_ignored addr user passwd key w :
  (is_none user || is_none passwd = false ->
   forall key', init addr user passwd key w = init addr user passwd key' w) /\
  (is_none user || is_none passwd = true ->
   init addr user passwd key w = init addr VNone VNone key w).
Proof.
  split.
  - intros H key'. run_client. rewrite H. reflexivity.
  - intros H. run_client. rewrite H. reflexivity.
Qed.

(** X16: a client the constructor returns was built from a non-empty
    address with a scheme and from credentials that are [str], after a
    probe that was answered, and not with 403.  The client holds the
    global arguments (signature, or username and password, then
    [format=json]), the endpoint, and the session just opened; the world
    has one session more and one request more, the probe: a POST of the
    global arguments alone to the endpoint over the client's session. *)
Theorem returned_client_and_probe a user passwd key w self w' :
  init (VStr a) user passwd key w = (Return self, w') ->
  a <> "" /\
  scheme_found a = true /\
  credentials_ok user passwd key = true /\
  status_code (received (probe a user passwd key w)) <> 403 /\
  self = built a user passwd key w /\
  w' = after_probe a user passwd key w.
Proof.
  intros E. apply init_success in E.
  destruct E as (Hb & Hw & Hp & Ha & Hs & Hc). repeat split; assumption.
Qed.

(** X17: a constructor that raises a ParamError has opened no session and
    sent nothing: every check of the arguments comes before line 53. *)
Theorem param_error_sends_nothing addr user passwd key w what :
  fst (init addr user passwd key w) = Raise (Pyourls3ParamError what) ->
  snd (init addr user passwd key w) = w.
Proof.
  run_client.
  destruct (negb (truthy addr)); simpl; [reflexivity |].
  destruct addr; simpl; try reflexivity.
  branches; intros E; try reflexivity; discriminate E.
Qed.

Lemma ends_with_slash_inv : forall a,
  ends_with_slash a = true -> exists base, a = base ++ "/".
Proof.
  unfold ends_with_slash. induction a as [| c a IH]; simpl; [discriminate |].
  destruct a as [| c' a'].
  - intros H. apply Ascii.eqb_eq in H as ->. exists "". reflexivity.
  - intros H. destruct (IH H) as [base ->]. exists (String c base).
    reflexivity.
Qed.

(** X18: the endpoint of every client the constructor returns is the
    address, without its last character when that is a ["/"], followed by
    ["/yourls-api.php"]: an address that ends in ["/"] gets no second
    one. *)
Theorem endpoint_shape a user passwd key w self w' :
  init (VStr a) user passwd key w = (Return self, w') ->
  exists base,
    api_endpoint self = base ++ "/yourls-api.php" /\
    ((ends_with_slash a = false /\ a = base) \/
     (ends_with_slash a = true /\ a = base ++ "/")).
Proof.
  intros E. apply init_returns in E as [E _]. rewrite E.
  destruct (ends_with_slash a) eqn:Hs; simpl.
  - destruct (ends_with_slash_inv _ Hs) as [base ->]. exists base.
    rewrite append_assoc3. auto.
  - exists a. rewrite append_assoc3. auto.
Qed.


(** X20: splitting loses nothing: the pieces of [s.split(sep)], joined
    again with [sep], are [s]. *)
Theorem join_split sep s : sep <> "" -> join sep (py_split sep s) = s.
Proof.
  intros H. now apply join_split_bounded with (n := String.length s).
Qed.

End Client.

(** ** The client on concrete replies *)

(** C1, counterexample: [update] raises URLAlreadyExistsError on the
    duplicate-URL reply. *)
Lemma update_raises_url_already_exists :
  fst (update (always duplicate_reply) sample_client
         (VStr "abc") (VStr "https://example.com") world1)
  = Raise (Pyourls3URLAlreadyExistsError (VStr "abc")).
Proof. reflexivity. Qed.



(** C3: on the message ["error: not found: abc"] the detail that [expand]
    and [url_stats] raise is ["not found"], not ["not found: abc"]. *)
Theorem error_detail_stops_at_second_separator :
  fst (expand (always not_found_reply) sample_client (VStr "abc") world1)
  = Raise (Pyourls3APIError (VStr "not found") (VStr "E404")) /\
  fst (url_stats (always not_found_reply) sample_client (VStr "abc") world1)
  = Raise (Pyourls3APIError (VStr "not found") (VStr "E404")).
Proof. split; reflexivity. Qed.

(** C4, counterexample: the empty key is accepted and becomes the
    signature. *)
Lemma empty_key_is_accepted :
  exists self w',
    init sample_parse_url (always ok_without_body)
      (VStr "http://sho.rt") VNone VNone (VStr "") world0 = (Return self, w') /\
    dict_get (global_args self) "signature" = Some (VStr "") /\
    credentials_non_empty (global_args self) = false.
Proof. do 2 eexists. split; [vm_compute; reflexivity | split; reflexivity]. Qed.

(** No credentials at all, and then the key ["k"]. *)
Lemma init_validates_credentials_witness :
  (is_none VNone || is_none VNone = true /\
   is_none VNone = true /\
   parser_raises sample_parse_url (VStr "http://sho.rt") = false /\
   exists what,
     init sample_parse_url (always ok_without_body)
       (VStr "http://sho.rt") VNone VNone VNone world0
     = (Raise (Pyourls3ParamError what), world0)) /\
  (init sample_parse_url (always ok_without_body)
     (VStr "http://sho.rt") VNone VNone (VStr "k") world0
   = (Return sample_client, world1) /\
   one_auth_mode (global_args sample_client) = true /\
   credentials_are_str (global_args sample_client) = true).
Proof.
  split.
  - do 3 (split; [reflexivity |]).
    apply (@init_validates_credentials sample_parse_url
             (always ok_without_body) (VStr "http://sho.rt")
             VNone VNone VNone world0); reflexivity.
  - split; [reflexivity |].
    apply (@init_validates_credentials sample_parse_url
             (always ok_without_body) (VStr "http://sho.rt")
             VNone VNone (VStr "k") world0) with (w' := world1).
    reflexivity.
Defined.

(** C5: a client is built, on session 0, and each method is called once;
    the seven requests on the wire went over seven sessions, and only the
    constructor's probe over the client's. *)
Theorem methods_open_sessions_of_their_own :
  let r := every_method sample_parse_url (always ok_reply)
             (VStr "http://sho.rt") (VStr "k")
             (VStr "https://example.com") (VStr "abc") world0 in
  exists self,
    fst r = Return self /\
    session self = 0%nat /\
    sessions_used (snd r) = [0; 1; 2; 3; 4; 5; 6]%nat.
Proof. eexists. split; [vm_compute; reflexivity | split; reflexivity]. Qed.

(** [delete] on a 200 without a body. *)
Lemma delete_true_exactly_on_200_witness :
  truthy (VStr "abc") = true /\
  delete_by_status (always ok_without_body) sample_client (VStr "abc").
Proof.
  split; [reflexivity |].
  apply delete_true_exactly_on_200. reflexivity.
Defined.

(** A probe answered 403, in signature mode and in password mode. *)
Lemma probe_403_is_authentication_error_witness :
  ("http://sho.rt" <> "" /\
   scheme_found sample_parse_url "http://sho.rt" = true /\
   credentials_ok VNone VNone (VStr "k") = true /\
   status_code
     (received (probe (always forbidden) "http://sho.rt" VNone VNone
                  (VStr "k") world0)) = 403 /\
   init sample_parse_url (always forbidden)
     (VStr "http://sho.rt") VNone VNone (VStr "k") world0
   = (Raise authentication_error,
      after_probe (always forbidden) "http://sho.rt" VNone VNone (VStr "k")
        world0)) /\
  (credentials_ok (VStr "u") (VStr "p") VNone = true /\
   fst (init sample_parse_url (always forbidden)
          (VStr "http://sho.rt") (VStr "u") (VStr "p") VNone world0)
   = Raise authentication_error).
Proof.
  split.
  - split; [discriminate |]. do 3 (split; [reflexivity |]).
    destruct (probe_403_is_authentication_error sample_parse_url
                (always forbidden) (VStr "http://sho.rt") VNone VNone
                (VStr "k") world0) as (_ & _ & H).
    apply (H "http://sho.rt"); first [reflexivity | discriminate].
  - split; [reflexivity |].
    destruct (probe_403_is_authentication_error sample_parse_url
                (always forbidden) (VStr "http://sho.rt") (VStr "u")
                (VStr "p") VNone world0) as (_ & H & _).
    destruct (H (probe (always forbidden) "http://sho.rt" (VStr "u")
                   (VStr "p") VNone world0) eq_refl) as [H403 _].
    apply H403. reflexivity.
Defined.

(** ["http://sho.rt"] and ["http://sho.rt/"]. *)
Lemma trailing_slash_same_endpoint_witness :
  ends_with_slash "http://sho.rt" = false /\
  init sample_parse_url (always ok_without_body)
    (VStr "http://sho.rt") VNone VNone (VStr "k") world0
  = (Return sample_client, world1) /\
  init sample_parse_url (always ok_without_body)
    (VStr ("http://sho.rt" ++ "/")) VNone VNone (VStr "k") world0
  = (Return sample_client, world1) /\
  api_endpoint sample_client = api_endpoint sample_client /\
  api_endpoint sample_client = "http://sho.rt" ++ "/" ++ "yourls-api.php".
Proof.
  do 3 (split; [reflexivity |]).
  apply (@trailing_slash_same_endpoint sample_parse_url
           (always ok_without_body) "http://sho.rt"
           VNone VNone (VStr "k") world0 sample_client world1
           VNone VNone (VStr "k") world0 sample_client world1);
    reflexivity.
Defined.

(** The message ["not found"], seen by [expand]. *)
Lemma message_without_separator_witness :
  truthy (VStr "abc") = true /\
  contains ": " "not found" = false /\
  fst (expand (always terse_reply) sample_client (VStr "abc") world1)
  = Raise IndexError.
Proof.
  split; [reflexivity | split; [reflexivity |]].
  destruct (@message_without_separator_raises_index_error
              (always terse_reply) sample_client (VStr "abc") eq_refl)
    as [He _].
  destruct (He world1) as [ex [P Q]].
  unfold posted in P. simpl in P. injection P as <-.
  apply (Q (VDict [("message", VStr "not found"); ("code", VStr "E404")])
           "not found"); try reflexivity.
  discriminate.
Defined.

(** C10, counterexample: a failure that lacks [message] and whose code is
    ["error:url"] raises URLAlreadyExistsError, one of the library's own
    errors. *)
Lemma duplicate_without_message_is_classified :
  (exists d,
     json_body duplicate_without_message = Some (VDict d) /\
     dict_get d "status" = Some (VStr "fail") /\
     dict_get d "message" = None) /\
  fst (shorten (always duplicate_without_message) sample_client
         (VStr "https://example.com") VNone VNone world1)
  = Raise (Pyourls3URLAlreadyExistsError (VStr "https://example.com")) /\
  classified (Pyourls3URLAlreadyExistsError (VStr "https://example.com"))
  = true.
Proof.
  split; [eexists; repeat split; reflexivity | split; reflexivity].
Qed.

(** A failure without [code], seen by [shorten]. *)
Lemma missing_keys_witness :
  truthy (VStr "https://example.com") = true /\
  fst (shorten (always failure_without_code) sample_client
         (VStr "https://example.com") VNone VNone world1)
  = Raise (KeyError "code").
Proof.
  split; [reflexivity |].
  destruct (@missing_keys_raise_untyped_errors
              (always failure_without_code) sample_client
              (VStr "https://example.com") VNone VNone eq_refl)
    as [Hs _].
  destruct (Hs world1) as [ex [P [_ Q]]].
  unfold posted in P. simpl in P. injection P as <-.
  destruct (Q [("status", VStr "fail")] eq_refl) as [_ Q'].
  destruct (Q' (VStr "fail") eq_refl eq_refl) as [Q'' _].
  apply Q''. reflexivity.
Defined.

(** ** The further properties on concrete replies *)

(** [expand "abc"] on the sample client. *)
Lemma each_call_posts_once_witness :
  truthy (VStr "abc") = true /\
  snd (expand (always ok_reply) sample_client (VStr "abc") world1)
  = after_call (always ok_reply) sample_client (expand_args (VStr "abc")) []
      world1.
Proof.
  split; [reflexivity |].
  destruct (@each_call_posts_once (always ok_reply) sample_client
              (VStr "abc") VNone VNone world1 eq_refl) as (_ & _ & H & _).
  exact H.
Defined.


(** The successful reply, returned whole by [shorten]. *)
Lemma document_returned_on_status_success_witness :
  truthy (VStr "https://example.com") = true /\
  exists v,
    json_body ok_reply = Some v /\
    fst (shorten (always ok_reply) sample_client
           (VStr "https://example.com") VNone VNone world1) = Return v.
Proof.
  split; [reflexivity |]. eexists. split; [reflexivity |].
  destruct (@document_returned_on_status_success (always ok_reply)
              sample_client (VStr "https://example.com") VNone VNone eq_refl)
    as [H _].
  apply H. split; [reflexivity |]. eexists. split; reflexivity.
Defined.

(** A failure that is no duplicate, seen by [update]. *)
Lemma api_error_carries_message_and_code_witness :
  truthy (VStr "abc") = true /\
  fst (update (always failure_reply) sample_client
         (VStr "abc") (VStr "https://example.com") world1)
  = Raise (Pyourls3APIError (VStr "Short URL abc already exists")
             (VStr "error:keyword")).
Proof.
  split; [reflexivity |].
  destruct (@api_error_carries_message_and_code (always failure_reply)
              sample_client (VStr "abc") (VStr "https://example.com") VNone
              eq_refl) as (_ & H & _).
  apply H. do 2 eexists. repeat split; reflexivity.
Defined.

(** The long URL out of the successful reply. *)
Lemma field_returned_on_message_success_witness :
  truthy (VStr "abc") = true /\
  fst (expand (always ok_reply) sample_client (VStr "abc") world1)
  = Return (VStr "https://example.com").
Proof.
  split; [reflexivity |].
  destruct (@field_returned_on_message_success (always ok_reply)
              sample_client (VStr "abc") eq_refl) as [H _].
  apply H. do 2 eexists. repeat split; reflexivity.
Defined.

(** ["error: not found: abc"]: the second piece is ["not found"]. *)
Lemma api_error_carries_second_piece_witness :
  truthy (VStr "abc") = true /\
  fst (expand (always not_found_reply) sample_client (VStr "abc") world1)
  = Raise (Pyourls3APIError (VStr "not found") (VStr "E404")).
Proof.
  split; [reflexivity |].
  destruct (@api_error_carries_second_piece (always not_found_reply)
              sample_client (VStr "abc") eq_refl) as [H _].
  apply H. do 3 eexists. repeat split; reflexivity.
Defined.

(** The message [500], a number. *)
Lemma non_str_message_raises_attribute_error_witness :
  truthy (VStr "abc") = true /\
  is_str (VInt 500) = false /\
  fst (expand (always numeric_message) sample_client (VStr "abc") world1)
  = Raise (AttributeError "split").
Proof.
  split; [reflexivity | split; [reflexivity |]].
  destruct (@non_str_message_raises_attribute_error (always numeric_message)
              sample_client (VStr "abc") eq_refl) as [H _].
  eapply H; reflexivity.
Defined.

(** A success without [longurl]. *)
Lemma message_keys_read_without_check_witness :
  truthy (VStr "abc") = true /\
  fst (expand (always success_without_payload) sample_client (VStr "abc")
         world1)
  = Raise (KeyError "longurl").
Proof.
  split; [reflexivity |].
  destruct (@message_keys_read_without_check (always success_without_payload)
              sample_client (VStr "abc") eq_refl) as [H _].
  destruct (H world1 _ eq_refl) as [_ K].
  destruct (K _ eq_refl) as (_ & K2 & _).
  apply (K2 (VStr "success")); reflexivity.
Defined.

(** ["error: not found: abc"] contains the separator. *)
Lemma message_with_separator_raises_api_error_witness :
  truthy (VStr "abc") = true /\
  contains ": " "error: not found: abc" = true /\
  exists detail,
    fst (url_stats (always not_found_reply) sample_client (VStr "abc") world1)
    = Raise (Pyourls3APIError (VStr detail) (VStr "E404")).
Proof.
  split; [reflexivity | split; [reflexivity |]].
  destruct (@message_with_separator_raises_api_error (always not_found_reply)
              sample_client (VStr "abc") eq_refl) as [_ H].
  eapply (H world1); first [reflexivity | discriminate].
Defined.

(** ["error: not found"]: the detail is ["not found"]. *)
Lemma single_separator_keeps_whole_detail_witness :
  truthy (VStr "abc") = true /\
  contains ": " "error" = false /\
  contains ": " "not found" = false /\
  fst (expand (always plain_not_found) sample_client (VStr "abc") world1)
  = Raise (Pyourls3APIError (VStr "not found") (VStr "E404")).
Proof.
  do 3 (split; [reflexivity |]).
  destruct (@single_separator_keeps_whole_detail (always plain_not_found)
              sample_client (VStr "abc") eq_refl) as [H _].
  eapply (H world1 _ "error" "not found"); reflexivity.
Defined.

(** The empty address, and an address without a scheme. *)
Lemma init_rejects_address_witness :
  (truthy (VStr "") = false /\
   init sample_parse_url (always ok_without_body)
     (VStr "") VNone VNone (VStr "k") world0
   = (Raise (Pyourls3ParamError "API URL"), world0)) /\
  ("sho.rt" <> "" /\
   sample_parse_url "sho.rt" = Parsed None /\
   init sample_parse_url (always ok_without_body)
     (VStr "sho.rt") VNone VNone (VStr "k") world0
   = (Raise (Pyourls3ParamError "addr"), world0)).
Proof.
  split.
  - split; [reflexivity |].
    apply (@init_rejects_address sample_parse_url (always ok_without_body)
             (VStr "") VNone VNone (VStr "k") world0). reflexivity.
  - split; [discriminate | split; [reflexivity |]].
    apply (@init_rejects_address sample_parse_url (always ok_without_body)
             (VStr "sho.rt") VNone VNone (VStr "k") world0) with (a := "sho.rt");
      [reflexivity | discriminate | left; reflexivity].
Defined.

(** The key [5]. *)
Lemma init_rejects_credentials_witness :
  "http://sho.rt" <> "" /\
  scheme_found sample_parse_url "http://sho.rt" = true /\
  init sample_parse_url (always ok_without_body)
    (VStr "http://sho.rt") VNone VNone (VInt 5) world0
  = (Raise (Pyourls3ParamError "key"), world0).
Proof.
  split; [discriminate | split; [reflexivity |]].
  destruct (@init_rejects_credentials sample_parse_url
              (always ok_without_body) "http://sho.rt" VNone VNone (VInt 5)
              world0 ltac:(discriminate) eq_refl) as [H _].
  apply H; reflexivity.
Defined.

(** A user and a password beside a key, and a user alone beside a key. *)
Lemma unused_credentials_are_ignored_witness :
  (is_none (VStr "u") || is_none (VStr "p") = false /\
   init sample_parse_url (always ok_without_body)
     (VStr "http://sho.rt") (VStr "u") (VStr "p") (VStr "k") world0
   = init sample_parse_url (always ok_without_body)
       (VStr "http://sho.rt") (VStr "u") (VStr "p") VNone world0) /\
  (is_none (VStr "u") || is_none VNone = true /\
   init sample_parse_url (always ok_without_body)
     (VStr "http://sho.rt") (VStr "u") VNone (VStr "k") world0
   = init sample_parse_url (always ok_without_body)
       (VStr "http://sho.rt") VNone VNone (VStr "k") world0).
Proof.
  split; (split; [reflexivity |]).
  - apply (@unused_credentials_are_ignored sample_parse_url
             (always ok_without_body) (VStr "http://sho.rt")
             (VStr "u") (VStr "p") (VStr "k") world0). reflexivity.
  - apply (@unused_credentials_are_ignored sample_parse_url
             (always ok_without_body) (VStr "http://sho.rt")
             (VStr "u") VNone (VStr "k") world0). reflexivity.
Defined.

(** No credentials at all. *)
Lemma param_error_sends_nothing_witness :
  fst (init sample_parse_url (always forbidden)
         (VStr "http://sho.rt") VNone VNone VNone world0)
  = Raise (Pyourls3ParamError "username and password or signature") /\
  snd (init sample_parse_url (always forbidden)
         (VStr "http://sho.rt") VNone VNone VNone world0) = world0.
Proof.
  split; [reflexivity |].
  apply (@param_error_sends_nothing sample_parse_url (always forbidden)
           (VStr "http://sho.rt") VNone VNone VNone world0
           "username and password or signature").
  reflexivity.
Defined.

(** The sample client and its probe. *)
Lemma returned_client_and_probe_witness :
  init sample_parse_url (always ok_without_body)
    (VStr "http://sho.rt") VNone VNone (VStr "k") world0
  = (Return sample_client, world1) /\
  sample_client
  = built "http://sho.rt" VNone VNone (VStr "k") world0 /\
  world1
  = after_probe (always ok_without_body) "http://sho.rt" VNone VNone
      (VStr "k") world0.
Proof.
  split; [reflexivity |].
  destruct (@returned_client_and_probe sample_parse_url
              (always ok_without_body) "http://sho.rt" VNone VNone (VStr "k")
              world0 sample_client world1 eq_refl)
    as (_ & _ & _ & _ & Hb & Hw).
  split; assumption.
Defined.

(** C9, counterexample: the message [500] is not ["success"] and has no
    [": "] in it, and the error is AttributeError, not the out-of-range
    one. *)
Lemma numeric_message_raises_attribute_error :
  (exists d,
     json_body numeric_message = Some (VDict d) /\
     dict_get d "message" = Some (VInt 500) /\
     eq_str (VInt 500) "success" = false) /\
  fst (expand (always numeric_message) sample_client (VStr "abc") world1)
  = Raise (AttributeError "split") /\
  fst (expand (always numeric_message) sample_client (VStr "abc") world1)
  <> Raise IndexError.
Proof.
  split; [eexists; repeat split; reflexivity |].
  split; [reflexivity | discriminate].
Qed.

(** ["http://sho.rt/"], with its slash. *)
Lemma endpoint_shape_witness :
  init sample_parse_url (always ok_without_body)
    (VStr "http://sho.rt/") VNone VNone (VStr "k") world0
  = (Return sample_client, world1) /\
  exists base,
    api_endpoint sample_client = base ++ "/yourls-api.php" /\
    ((ends_with_slash "http://sho.rt/" = false /\ "http://sho.rt/" = base) \/
     (ends_with_slash "http://sho.rt/" = true /\
      "http://sho.rt/" = base ++ "/")).
Proof.
  split; [reflexivity |].
  apply (@endpoint_shape sample_parse_url (always ok_without_body)
           "http://sho.rt/" VNone VNone (VStr "k") world0 sample_client world1).
  reflexivity.
Defined.


(** A message with two separators. *)
Lemma join_split_witness :
  ": " <> "" /\ join ": " (py_split ": " "error: a: b") = "error: a: b".
Proof.
  split; [discriminate |]. apply join_split. discriminate.
Defined.
